(** * tensorpack/callbacks/monitor.py: the monitor hub and its sinks

    A shallow embedding of [Monitors], [ScalarHistory], [JSONWriter],
    [TFSummaryWriter], [ScalarPrinter] and [NoOpMonitor].

    Python objects are records whose attributes are [option]s while they
    may still be unset; a method that reads an unset attribute raises
    [AttributeError].  Methods are state-passing functions that return the
    new state of the object together with a [Res]ult, because a Python
    exception leaves every mutation made before it in place.  A [dict] is a
    [gmap], a Python [float] is a binary64 [float], and the 32-bit float of a
    protobuf field is a binary64 [float] rounded to binary32. *)

From Stdlib Require Import ZArith Ascii String List Lia.
From Stdlib Require Import Floats.PrimFloat.
From Stdlib Require Floats.SpecFloat Floats.FloatOps.
From stdpp Require Import base option list sorting gmap strings.

Local Open Scope string_scope.
Local Open Scope list_scope.

(** ** [re.sub('tower[p0-9]+/', '', tag)] and the [-summary] suffix *)

Module Tag.

(** The character class [[p0-9]]. *)
Definition in_class (c : ascii) : bool :=
  Ascii.eqb c "p" || ((48 <=? nat_of_ascii c)%nat && (nat_of_ascii c <=? 57)%nat).

(** Matching a literal at the head of [s]: the rest of [s] after it. *)
Fixpoint strip_literal (lit s : string) : option string :=
  match lit with
  | EmptyString => Some s
  | String a lit' =>
      match s with
      | EmptyString => None
      | String b s' => if Ascii.eqb a b then strip_literal lit' s' else None
      end
  end.

(** Length of the longest prefix of [s] made of class characters: the
    greedy [[p0-9]+] takes all of them. *)
Fixpoint class_run (s : string) : nat :=
  match s with
  | EmptyString => 0
  | String c s' => if in_class c then S (class_run s') else 0
  end.

(** [match_tower s]: the length of the match of [tower[p0-9]+/] anchored
    at the head of [s], if there is one.  The character after the greedy
    run has to be the slash; giving characters of the run back cannot help,
    a class character is not a slash. *)
Definition match_tower (s : string) : option nat :=
  match strip_literal "tower" s with
  | None => None
  | Some t =>
      let n := class_run t in
      match n with
      | O => None
      | S _ =>
          match String.get n t with
          | Some c => if Ascii.eqb c "/" then Some (5 + n + 1) else None
          | None => None
          end
      end
  end.

(** The scan of [re.sub] with the empty replacement: at each position try
    to match; the characters of a match are dropped and the scan goes on
    after it, a character where nothing matches is copied.  [skip] counts
    the characters of the current match that are still to be dropped. *)
Fixpoint sub_from (skip : nat) (s : string) : string :=
  match s with
  | EmptyString => EmptyString
  | String c s' =>
      match skip with
      | S k => sub_from k s'
      | O =>
          match match_tower s with
          | Some n => sub_from (Nat.pred n) s'
          | None => String c (sub_from 0 s')
          end
      end
  end.

Definition re_sub_tower (s : string) : string := sub_from 0 s.

(** [tag.endswith(suffix)] *)
Definition endswith (s suffix : string) : bool :=
  (String.length suffix <=? String.length s)%nat
  && String.eqb (substring (String.length s - String.length suffix)
                           (String.length suffix) s) suffix.

Definition suffix : string := "-summary".

(** The two assignments to [val.tag] in [Monitors.put_summary]. *)
Definition normalize (tag : string) : string :=
  let tag := re_sub_tower tag in
  if endswith tag suffix
  then substring 0 (String.length tag - String.length suffix) tag
  else tag.




End Tag.

(** ** Python values, exceptions, results *)

Inductive Exn : Type :=
| AttributeError (attr : string)
| KeyError (msg : string)
| ValueError
| TypeError
| OverflowError
| AssertionError
| DecodeError.

Inductive Res (A : Type) : Type :=
| Ok (a : A)
| Raise (e : Exn).
Arguments Ok {A} a.
Arguments Raise {A} e.

(** A method of an object with state [S]: the state after the call and
    what the call returned or raised. *)
Definition M (S A : Type) : Type := S → S * Res A.

Global Instance M_ret {S} : MRet (M S) := λ A a s, (s, Ok a).
Global Instance M_bind {S} : MBind (M S) := λ A B k c s,
  match c s with
  | (s', Ok a) => k a s'
  | (s', Raise e) => (s', Raise e)
  end.
Definition raise {S A} (e : Exn) : M S A := λ s, (s, Raise e).
(** What a caller may pass as [val]. *)
Inductive PyVal : Type :=
| PyFloat (x : float)
| PyInt (n : Z)
| PyStr (s : string)
| PyNone.

(** JSON documents, as [json.load] returns them and [json.dump] takes
    them. *)
#[warnings="-register-all"]
Inductive Json : Type :=
| JNull
| JBool (b : bool)
| JInt (n : Z)
| JFloat (x : float)
| JStr (s : string)
| JList (l : list Json)
| JDict (d : gmap string Json).

(** ** [tf.Summary] *)

(** The [oneof value] of a [Summary.Value]: the scalar case, or one of the
    others (image, histogram, audio, tensor, or unset). *)
Inductive ValueOneof : Type :=
| simple_value (x : float)
| other_value (kind : string).

Record SummaryValue : Type := { tag : string; value : ValueOneof }.

(** The field [simple_value] is a 32-bit protobuf [float]: assigning a
    Python float to it keeps the nearest binary32 value (ties to even,
    infinity beyond the binary32 range); zeros, infinities and NaN stay. *)
Definition to_float32 (x : float) : float :=
  match FloatOps.Prim2SF x with
  | SpecFloat.S754_finite s m e =>
      FloatOps.SF2Prim (SpecFloat.binary_round 24 128 s m e)
  | _ => x
  end.

Definition Summary : Type := list SummaryValue.

(** What the module takes from outside the repository: the builtin
    [float()] on integers and on text, and the decoder of the summary wire
    format. *)
Class Builtins : Type := {
  float_of_int : Z → Res float;
  float_of_str : string → Res float;
  Summary_FromString : string → Res Summary
}.

(** [float(val)] *)
Definition py_float `{Builtins} (val : PyVal) : Res float :=
  match val with
  | PyFloat x => Ok x
  | PyInt n => float_of_int n
  | PyStr s => float_of_str s
  | PyNone => Raise TypeError
  end.

(** ** The trainer *)

(** Modelled from the spec: the host-provided context (the trainer and the
    properties of the [Callback] base class in callbacks/base.py that read
    it) exposes the current epoch number, the global step counter, the
    step within the epoch and the configured steps per epoch.  A monitor
    keeps a reference to the trainer; the counters it reads through that
    reference are those of the moment, passed to each method as [now]. *)
Definition TrainerRef : Type := nat.

Record TrainerState : Type := {
  epoch_num : Z;
  global_step : Z;
  local_step : Z;
  steps_per_epoch : Z
}.

(** Process-wide state outside the monitor objects: [logger.LOG_DIR], the
    files, and what was given to the logger. *)
Inductive FileData : Type :=
| JsonText (j : Json)
| Garbage.

Record World : Type := {
  LOG_DIR : option string;
  files : gmap string FileData;
  log : list string
}.

Definition set_files (f : gmap string FileData → gmap string FileData) (w : World) : World :=
  {| LOG_DIR := LOG_DIR w; files := f (files w); log := log w |}.
Definition logger (msg : string) (w : World) : World :=
  {| LOG_DIR := LOG_DIR w; files := files w; log := log w ++ [msg] |}.

(** [if logger.LOG_DIR:] *)
Definition truthy (dir : option string) : bool :=
  match dir with
  | None => false
  | Some EmptyString => false
  | Some (String _ _) => true
  end.

(** State helpers of the method monad. *)
Definition get {S} : M S S := λ s, (s, Ok s).
Definition modify {S} (f : S → S) : M S unit := λ s, (f s, Ok tt).
Definition lift {S A} (r : Res A) : M S A := λ s, (s, r).
(** Reading an attribute that may not have been assigned yet. *)
Definition attr {S A} (name : string) (proj : S → option A) : M S A :=
  λ s, match proj s with
       | Some a => (s, Ok a)
       | None => (s, Raise (AttributeError name))
       end.
(** [for a in l: body(a)] *)
Fixpoint for_each {S A} (l : list A) (body : A → M S unit) : M S unit :=
  match l with
  | [] => mret tt
  | a :: l' => body a;; for_each l' body
  end.

(** ** [TrainingMonitor]: the defaults the sinks inherit *)

Module TrainingMonitor.
Section defaults.
Context {S : Type}.
(** [_setup_graph], [put_summary], [put]: [pass]. *)
Definition _setup_graph : M S unit := mret tt.
Definition put_summary (summary : Summary) : M S unit := mret tt.
Definition put (name : string) (val : PyVal) : M S unit := mret tt.
(** [put_scalar] calls [self.put], whichever the class has. *)
Definition put_scalar (put : string → PyVal → M S unit)
  (name : string) (val : PyVal) : M S unit :=
put name val.
(** [setup_graph]: [self.trainer = trainer], then the class's
  [_setup_graph]. *)
Definition setup_graph (set_trainer : TrainerRef → S → S)
  (_setup_graph : M S unit) (trainer : TrainerRef) : M S unit :=
modify (set_trainer trainer);; _setup_graph.
(** Modelled from the spec: the hooks of the [Callback] base class
  (callbacks/base.py) that a monitor inherits; the step trigger, the
  epoch trigger and the teardown are no-ops by default. *)
Definition trigger_step : M S unit := mret tt.
Definition trigger_epoch : M S unit := mret tt.
Definition after_train : M S unit := mret tt.
End defaults.
End TrainingMonitor.

(** ** [NoOpMonitor] *)

Module NoOpMonitor.
Record t : Type := { trainer : option TrainerRef }.
Definition new : t := {| trainer := None |}.
Definition set_trainer (tr : TrainerRef) (self : t) : t := {| trainer := Some tr |}.

Definition setup_graph : TrainerRef → M t unit :=
  TrainingMonitor.setup_graph set_trainer TrainingMonitor._setup_graph.
Definition put_summary : Summary → M t unit := TrainingMonitor.put_summary.
Definition put : string → PyVal → M t unit := TrainingMonitor.put.
Definition put_scalar : string → PyVal → M t unit := TrainingMonitor.put_scalar put.
Definition trigger_step : M t unit := TrainingMonitor.trigger_step.
Definition trigger_epoch : M t unit := TrainingMonitor.trigger_epoch.
Definition after_train : M t unit := TrainingMonitor.after_train.
End NoOpMonitor.

(** ** [ScalarHistory] *)

Module ScalarHistory.
Record t : Type := {
  trainer : option TrainerRef;
  _dic : option (gmap string (list float))
}.
Definition new : t := {| trainer := None; _dic := None |}.
Definition set_trainer (tr : TrainerRef) (self : t) : t :=
  {| trainer := Some tr; _dic := _dic self |}.
Definition set_dic (d : gmap string (list float)) (self : t) : t :=
  {| trainer := trainer self; _dic := Some d |}.

(** [self._dic = defaultdict(list)] *)
Definition _setup_graph : M t unit := modify (set_dic ∅).
Definition setup_graph : TrainerRef → M t unit :=
  TrainingMonitor.setup_graph set_trainer _setup_graph.

(** [self._dic[name]] on the [defaultdict]: a missing key is inserted with
    an empty list, which is what the lookup returns. *)
Definition getitem (name : string) : M t (list float) :=
  d ← attr "_dic" _dic;
  match d !! name with
  | Some hist => mret hist
  | None => modify (set_dic (<[name := []]> d));; mret []
  end.

Section methods.
Context `{Builtins}.

(** [self._dic[name].append(float(val))]: the list is looked up (and
  created) before [float(val)] is evaluated. *)
Definition put_scalar (name : string) (val : PyVal) : M t unit :=
hist ← getitem name;
x ← lift (py_float val);
d ← attr "_dic" _dic;
modify (set_dic (<[name := hist ++ [x]]> d)).
End methods.

Definition get_latest (name : string) : M t float :=
  hist ← getitem name;
  match last hist with
  | None => raise (KeyError ("Invalid key: " +:+ name))
  | Some x => mret x
  end.

Definition get_history (name : string) : M t (list float) :=
  getitem name.
End ScalarHistory.

(** ** [ScalarPrinter] *)

Module ScalarPrinter.
Record t : Type := {
  trainer : option TrainerRef;
  _enable_step : bool;
  _enable_epoch : bool;
  _dic : option (gmap string float);
  _total : option Z
}.
Definition __init__ (enable_step enable_epoch : bool) : t :=
  {| trainer := None; _enable_step := enable_step; _enable_epoch := enable_epoch;
     _dic := None; _total := None |}.
Definition set_trainer (tr : TrainerRef) (self : t) : t :=
  {| trainer := Some tr; _enable_step := _enable_step self;
     _enable_epoch := _enable_epoch self; _dic := _dic self; _total := _total self |}.
Definition set_dic (d : gmap string float) (self : t) : t :=
  {| trainer := trainer self; _enable_step := _enable_step self;
     _enable_epoch := _enable_epoch self; _dic := Some d; _total := _total self |}.
Definition set_total (n : Z) (self : t) : t :=
  {| trainer := trainer self; _enable_step := _enable_step self;
     _enable_epoch := _enable_epoch self; _dic := _dic self; _total := Some n |}.

Definition _setup_graph (now : TrainerState) : M t unit :=
  modify (set_dic ∅);;
  attr "trainer" trainer;;
  modify (set_total (steps_per_epoch now)).
Definition setup_graph (now : TrainerState) : TrainerRef → M t unit :=
  TrainingMonitor.setup_graph set_trainer (_setup_graph now).

Section methods.
Context `{Builtins}.
(** [self._dic[name] = float(val)]: the right-hand side first. *)
Definition put_scalar (name : string) (val : PyVal) : M t unit :=
x ← lift (py_float val);
d ← attr "_dic" _dic;
modify (set_dic (<[name := x]> d)).
End methods.
(** [self._whitelist] and [self._blacklist]: [__init__] assigns [None] and
    the empty set, and nothing in the module assigns them again. *)
Definition _whitelist : option (gset string) := None.
Definition _blacklist : gset string := ∅.

(** The two tests in [_print_stat]: [self._whitelist is None or k in
    self._whitelist], then [k not in self._blacklist]. *)
Definition passes (k : string) : bool :=
  match _whitelist with
  | None => true
  | Some allowed => bool_decide (k ∈ allowed)
  end
  && negb (bool_decide (k ∈ _blacklist)).

(** The order of [sorted(..., key=operator.itemgetter(0))]: by name. *)
Definition by_name (a b : string * float) : Prop := String.leb a.1 b.1 = true.
Global Instance by_name_dec (a b : string * float) : Decision (by_name a b).
Proof. unfold by_name. apply _. Defined.

Definition sorted_items (d : gmap string float) : list (string * float) :=
  merge_sort by_name (map_to_list d).

Section printing.
(** ['{:.5g}'.format(v)], the text of a float with five significant
    digits, is Python's. *)
Variable format_5g : float → string.

(** ['{}: {:.5g}'.format(k, v)] *)
Definition line (kv : string * float) : string :=
  kv.1 +:+ ": " +:+ format_5g kv.2.

Definition _print_stat : M (World * t) unit :=
  d ← attr "_dic" (λ s, _dic s.2);
  for_each (sorted_items d)
    (λ kv, if passes kv.1
           then modify (λ s, (logger (line kv) s.1, s.2))
           else mret tt);;
  modify (λ s, (s.1, set_dic ∅ s.2)).

Definition _trigger_step (now : TrainerState) : M (World * t) unit :=
  s ← get;
  if _enable_step s.2 then
    attr "trainer" (λ s, trainer s.2);;
    total ← attr "_total" (λ s, _total s.2);
    if negb (local_step now =? total - 1)%Z then _print_stat
    else if negb (_enable_epoch s.2) then _print_stat
    else mret tt
  else mret tt.

Definition _trigger_epoch : M (World * t) unit :=
  s ← get;
  if _enable_epoch s.2 then _print_stat else mret tt.
End printing.
End ScalarPrinter.

(** ** [TFSummaryWriter] *)

Module TFSummaryWriter.
(** [tf.summary.FileWriter]: the directory it writes to and the summaries
    added so far, each with its step. *)
Record FileWriter : Type := {
  logdir : string;
  events : list (Summary * Z)
}.
Record t : Type := {
  trainer : option TrainerRef;
  _writer : option FileWriter
}.
Definition new : t := {| trainer := None; _writer := None |}.
Definition set_trainer (tr : TrainerRef) (self : t) : t :=
  {| trainer := Some tr; _writer := _writer self |}.
Definition set_writer (fw : FileWriter) (self : t) : t :=
  {| trainer := trainer self; _writer := Some fw |}.

Definition _setup_graph (w : World) : M t unit :=
  match LOG_DIR w with
  | None => raise TypeError
  | Some dir => modify (set_writer {| logdir := dir; events := [] |})
  end.
Definition setup_graph (w : World) : TrainerRef → M t unit :=
  TrainingMonitor.setup_graph set_trainer (_setup_graph w).

(** [self._writer.add_summary(summary, self.global_step)] *)
Definition put_summary (now : TrainerState) (summary : Summary) : M t unit :=
  fw ← attr "_writer" _writer;
  attr "trainer" trainer;;
  modify (set_writer {| logdir := logdir fw;
                        events := events fw ++ [(summary, global_step now)] |}).
Definition put : string → PyVal → M t unit := TrainingMonitor.put.
Definition put_scalar : string → PyVal → M t unit := TrainingMonitor.put_scalar put.
End TFSummaryWriter.

(** ** [JSONWriter] *)

Module JSONWriter.
Record t : Type := {
  trainer : option TrainerRef;
  _dir : option string;
  _fname : option string;
  _stats : option Json;
  _stat_now : option (gmap string Json);
  _last_gs : option Z;
  _total : option Z
}.
Definition new : t :=
  {| trainer := None; _dir := None; _fname := None; _stats := None;
     _stat_now := None; _last_gs := None; _total := None |}.
Definition set_trainer (tr : TrainerRef) (self : t) : t :=
  {| trainer := Some tr; _dir := _dir self; _fname := _fname self;
     _stats := _stats self; _stat_now := _stat_now self;
     _last_gs := _last_gs self; _total := _total self |}.
Definition set_paths (dir fname : string) (self : t) : t :=
  {| trainer := trainer self; _dir := Some dir; _fname := Some fname;
     _stats := _stats self; _stat_now := _stat_now self;
     _last_gs := _last_gs self; _total := _total self |}.
Definition set_stats (j : Json) (self : t) : t :=
  {| trainer := trainer self; _dir := _dir self; _fname := _fname self;
     _stats := Some j; _stat_now := _stat_now self;
     _last_gs := _last_gs self; _total := _total self |}.
Definition set_stat_now (d : gmap string Json) (self : t) : t :=
  {| trainer := trainer self; _dir := _dir self; _fname := _fname self;
     _stats := _stats self; _stat_now := Some d;
     _last_gs := _last_gs self; _total := _total self |}.
Definition set_last_gs (gs : Z) (self : t) : t :=
  {| trainer := trainer self; _dir := _dir self; _fname := _fname self;
     _stats := _stats self; _stat_now := _stat_now self;
     _last_gs := Some gs; _total := _total self |}.
Definition set_total (total : Z) (self : t) : t :=
  {| trainer := trainer self; _dir := _dir self; _fname := _fname self;
     _stats := _stats self; _stat_now := _stat_now self;
     _last_gs := _last_gs self; _total := Some total |}.

(** The methods that touch files run on the world and the object. *)
Definition self_ {A} (proj : t → option A) : World * t → option A := λ s, proj s.2.
Definition on_self (f : t → t) : M (World * t) unit := modify (λ s, (s.1, f s.2)).
Definition on_world (f : World → World) : M (World * t) unit := modify (λ s, (f s.1, s.2)).

(** [os.path.join(a, b)] for a relative [b]. *)
Definition path_join (a b : string) : string :=
  if String.eqb a "" || Tag.endswith a "/" then a +:+ b else a +:+ "/" +:+ b.

Definition _setup_graph (now : TrainerState) : M (World * t) unit :=
  s ← get;
  match LOG_DIR s.1 with
  | None => raise TypeError
  | Some dir =>
      let fname := path_join dir "stat.json" in
      on_self (set_paths dir fname);;
      match files s.1 !! fname with
      | Some data =>
          on_world (logger ("Found existing JSON at " +:+ fname
                            +:+ ", will append to it."));;
          match data with
          | Garbage => raise ValueError
          | JsonText j =>
              on_self (set_stats j);;
              match j with
              | JList _ => mret tt
              | _ => raise AssertionError
              end
          end
      | None => on_self (set_stats (JList []))
      end;;
      on_self (set_stat_now ∅);;
      on_self (set_last_gs (-1));;
      attr "trainer" (self_ trainer);;
      on_self (set_total (steps_per_epoch now))
  end.
Definition setup_graph (now : TrainerState) (trainer : TrainerRef) : M (World * t) unit :=
  on_self (set_trainer trainer);; _setup_graph now.

Section methods.
Context `{Builtins}.
(** [self._stat_now[name] = float(val)]: the right-hand side first. *)
Definition put_scalar (name : string) (val : PyVal) : M t unit :=
x ← lift (py_float val);
d ← attr "_stat_now" _stat_now;
modify (set_stat_now (<[name := JFloat x]> d)).
End methods.

(** What the disk does during one [_write_stat], whose steps are
    [open(tmp_filename, 'w')], [json.dump] and [shutil.move].  The move
    renames the temporary file; when the rename fails it copies the
    temporary file over the canonical one and then removes the temporary
    file, and each of these can fail in turn: the copy before it has
    opened the canonical file ([IoMoveFails]), the copy after it has
    truncated the canonical file ([IoMoveCopyFails]), or, with the
    content copied, the rest of the move ([IoMoveUnlinkFails]).  Every
    one of these failures is an [IOError], as in Python 3 where [IOError]
    and [OSError] are the same class. *)
Inductive IOOutcome : Type :=
| IoOk
| IoOpenFails
| IoDumpFails
| IoMoveFails
| IoMoveCopyFails
| IoMoveUnlinkFails.

(** The temporary file is written, then moved over the canonical name; an
    [IOError] on the way is logged and not raised. *)
Definition _write_stat (io : IOOutcome) : M (World * t) unit :=
  fname ← attr "_fname" (self_ _fname);
  let tmp_filename := fname +:+ ".tmp" in
  stats ← attr "_stats" (self_ _stats);
  match io with
  | IoOk =>
      on_world (set_files (λ fs, <[fname := JsonText stats]> (delete tmp_filename fs)))
  | IoOpenFails =>
      on_world (logger "Exception in JSONWriter._write_stat()!")
  | IoDumpFails =>
      on_world (set_files (insert tmp_filename Garbage));;
      on_world (logger "Exception in JSONWriter._write_stat()!")
  | IoMoveFails =>
      on_world (set_files (insert tmp_filename (JsonText stats)));;
      on_world (logger "Exception in JSONWriter._write_stat()!")
  | IoMoveCopyFails =>
      on_world (set_files (insert tmp_filename (JsonText stats)));;
      on_world (set_files (insert fname Garbage));;
      on_world (logger "Exception in JSONWriter._write_stat()!")
  | IoMoveUnlinkFails =>
      on_world (set_files (insert tmp_filename (JsonText stats)));;
      on_world (set_files (insert fname (JsonText stats)));;
      on_world (logger "Exception in JSONWriter._write_stat()!")
  end.

(** [self._stats.append(row)] *)
Definition stats_append (row : Json) : M (World * t) unit :=
  stats ← attr "_stats" (self_ _stats);
  match stats with
  | JList rows => on_self (set_stats (JList (rows ++ [row])))
  | _ => raise (AttributeError "append")
  end.

Definition _push (now : TrainerState) (io : IOOutcome) : M (World * t) unit :=
  stat_now ← attr "_stat_now" (self_ _stat_now);
  if negb (size stat_now =? 0)%nat then
    attr "trainer" (self_ trainer);;
    on_self (set_stat_now (<["epoch_num" := JInt (epoch_num now)]> stat_now));;
    stat_now ← attr "_stat_now" (self_ _stat_now);
    on_self (set_stat_now (<["global_step" := JInt (global_step now)]> stat_now));;
    stat_now ← attr "_stat_now" (self_ _stat_now);
    stats_append (JDict stat_now);;
    on_self (set_stat_now ∅);;
    _write_stat io
  else mret tt.

Definition _trigger_step (now : TrainerState) (io : IOOutcome) : M (World * t) unit :=
  attr "trainer" (self_ trainer);;
  total ← attr "_total" (self_ _total);
  if negb (local_step now =? total - 1)%Z then _push now io else mret tt.

Definition _trigger_epoch (now : TrainerState) (io : IOOutcome) : M (World * t) unit :=
  _push now io.
End JSONWriter.

(** ** The sinks a hub can hold *)

Inductive Monitor : Type :=
| ANoOpMonitor (o : NoOpMonitor.t)
| ATFSummaryWriter (o : TFSummaryWriter.t)
| AJSONWriter (o : JSONWriter.t)
| AScalarPrinter (o : ScalarPrinter.t)
| AScalarHistory (o : ScalarHistory.t).

(** A method of one class, as a method of the sink. *)
Definition as_ {S A} (inj : S → Monitor) (c : M S A) (o : S) : Monitor * Res A :=
  let '(o', r) := c o in (inj o', r).

(** [TFSummaryWriter.__new__] and [JSONWriter.__new__]: without a logger
    directory a warning is logged and a [NoOpMonitor] is returned in place
    of the writer. *)
Definition TFSummaryWriter__new__ (w : World) : World * Monitor :=
  if truthy (LOG_DIR w)
  then (w, ATFSummaryWriter TFSummaryWriter.new)
  else (logger "logger directory was not set. Ignore TFSummaryWriter." w,
        ANoOpMonitor NoOpMonitor.new).

Definition JSONWriter__new__ (w : World) : World * Monitor :=
  if truthy (LOG_DIR w)
  then (w, AJSONWriter JSONWriter.new)
  else (logger "logger directory was not set. Ignore JSONWriter." w,
        ANoOpMonitor NoOpMonitor.new).

Module Sink.
Section methods.
Context `{Builtins}.

(** [m.put_scalar(name, val)], by the class of [m]. *)
Definition put_scalar (name : string) (val : PyVal) : M Monitor unit := λ m,
match m with
| ANoOpMonitor o => as_ ANoOpMonitor (NoOpMonitor.put_scalar name val) o
| ATFSummaryWriter o => as_ ATFSummaryWriter (TFSummaryWriter.put_scalar name val) o
| AJSONWriter o => as_ AJSONWriter (JSONWriter.put_scalar name val) o
| AScalarPrinter o => as_ AScalarPrinter (ScalarPrinter.put_scalar name val) o
| AScalarHistory o => as_ AScalarHistory (ScalarHistory.put_scalar name val) o
end.

(** [m.put_summary(summary)], by the class of [m]; only the event-file
  writer overrides the default. *)
Definition put_summary (now : TrainerState) (summary : Summary) : M Monitor unit := λ m,
match m with
| ANoOpMonitor o => as_ ANoOpMonitor (NoOpMonitor.put_summary summary) o
| ATFSummaryWriter o => as_ ATFSummaryWriter (TFSummaryWriter.put_summary now summary) o
| AJSONWriter o => as_ AJSONWriter (TrainingMonitor.put_summary summary) o
| AScalarPrinter o => as_ AScalarPrinter (TrainingMonitor.put_summary summary) o
| AScalarHistory o => as_ AScalarHistory (TrainingMonitor.put_summary summary) o
end.
End methods.

(** A method of [ScalarHistory], called on a sink. *)
Definition as_history {A} (c : M ScalarHistory.t A) : M Monitor A := λ m,
  match m with
  | AScalarHistory o => as_ AScalarHistory c o
  | _ => (m, Raise (AttributeError "ScalarHistory"))
  end.

(** The sink has the attributes that its put methods read; its
    [setup_graph] assigns them. *)
Definition is_setup (m : Monitor) : bool :=
  match m with
  | ANoOpMonitor o => true
  | ATFSummaryWriter o =>
      bool_decide (is_Some (TFSummaryWriter.trainer o))
      && bool_decide (is_Some (TFSummaryWriter._writer o))
  | AJSONWriter o => bool_decide (is_Some (JSONWriter._stat_now o))
  | AScalarPrinter o => bool_decide (is_Some (ScalarPrinter._dic o))
  | AScalarHistory o => bool_decide (is_Some (ScalarHistory._dic o))
  end.
End Sink.

(** ** [Monitors]: the hub *)

(** The calls the hub makes to its sinks. *)
Inductive Call : Type :=
| CallSetupGraph (trainer : TrainerRef)
| CallPutSummary (summary : Summary)
| CallPutScalar (name : string) (val : PyVal).

(** What [put_summary] may be given. *)
Inductive SummaryArg : Type :=
| ArgSummary (summary : Summary)
| ArgBytes (data : string)
| ArgOther.

Module Monitors.
(** [calls] is ghost state: the hub appends to it, just before each call
    it makes to a sink, the index of the sink in [_monitors] and the call.
    [self._scalar_history] is the object at the end of [_monitors]; it is
    kept there only, and addressed by its index. *)
Record t : Type := {
  trainer : option TrainerRef;
  _monitors : list Monitor;
  calls : list (nat * Call)
}.
Definition set_trainer (tr : TrainerRef) (self : t) : t :=
  {| trainer := Some tr; _monitors := _monitors self; calls := calls self |}.
Definition set_monitors (ms : list Monitor) (self : t) : t :=
  {| trainer := trainer self; _monitors := ms; calls := calls self |}.
Definition record_call (i : nat) (c : Call) : M t unit :=
  modify (λ self, {| trainer := trainer self; _monitors := _monitors self;
                     calls := calls self ++ [(i, c)] |}).

Definition __init__ (monitors : list Monitor) : t :=
  {| trainer := None;
     _monitors := monitors ++ [AScalarHistory ScalarHistory.new];
     calls := [] |}.

Definition _scalar_history (self : t) : nat := Nat.pred (length (_monitors self)).

(** Calling a method on the sink at index [i]. *)
Definition at_ {A} (i : nat) (c : M Monitor A) : M t A := λ self,
  match _monitors self !! i with
  | Some m => let '(m', r) := c m in (set_monitors (<[i := m']> (_monitors self)) self, r)
  | None => (self, Raise (AttributeError "_monitors"))
  end.

(** [for m in self._monitors: call(m)] *)
Definition for_monitors (c : Call) (call : M Monitor unit) : M t unit :=
  self ← get;
  for_each (seq 0 (length (_monitors self)))
           (λ i, record_call i c;; at_ i call).

Section methods.
Context `{Builtins}.
Variable now : TrainerState.

Definition _setup_graph : M t unit :=
tr ← attr "trainer" trainer;
self ← get;
record_call (_scalar_history self) (CallSetupGraph tr);;
at_ (_scalar_history self) (Sink.as_history (ScalarHistory.setup_graph tr)).
Definition setup_graph : TrainerRef → M t unit :=
TrainingMonitor.setup_graph set_trainer _setup_graph.

Definition _dispatch_put_summary (summary : Summary) : M t unit :=
for_monitors (CallPutSummary summary) (Sink.put_summary now summary).

Definition _dispatch_put_scalar (name : string) (val : PyVal) : M t unit :=
for_monitors (CallPutScalar name val) (Sink.put_scalar name val).

(** The loop over [summary.value]: a scalar value gets its tag rewritten
  in place and is dispatched under the new tag; the result is the list
  of values as the loop leaves it. *)
Fixpoint put_values (vals : list SummaryValue) : M t (list SummaryValue) :=
match vals with
| [] => mret []
| val :: rest =>
    match value val with
    | simple_value x =>
        let val' := {| tag := Tag.normalize (tag val); value := value val |} in
        _dispatch_put_scalar (tag val') (PyFloat x);;
        rest' ← put_values rest;
        mret (val' :: rest')
    | other_value _ =>
        rest' ← put_values rest;
        mret (val :: rest')
    end
end.

(** [put_summary]: returns the summary object as the call leaves it. *)
Definition put_summary (arg : SummaryArg) : M t Summary :=
summary ← lift (match arg with
                | ArgBytes data => Summary_FromString data
                | ArgSummary summary => Ok summary
                | ArgOther => Raise AssertionError
                end);
_dispatch_put_summary summary;;
put_values summary.

(** [s = tf.Summary(); s.value.add(tag=name, simple_value=val)]: the
  field takes a number and refuses anything else, and it keeps the
  number as a 32-bit float. *)
Definition Summary_add (name : string) (val : PyVal) : Res Summary :=
match val with
| PyFloat x => Ok [{| tag := name; value := simple_value (to_float32 x) |}]
| PyInt n =>
    match float_of_int n with
    | Ok x => Ok [{| tag := name; value := simple_value (to_float32 x) |}]
    | Raise e => Raise e
    end
| PyStr _ | PyNone => Raise TypeError
end.

Definition put_scalar (name : string) (val : PyVal) : M t unit :=
_dispatch_put_scalar name val;;
s ← lift (Summary_add name val);
_dispatch_put_summary s.

Definition put (name : string) (val : PyVal) : M t unit :=
x ← lift (py_float val);
put_scalar name (PyFloat x).

Definition get_latest (name : string) : M t float :=
self ← get;
at_ (_scalar_history self) (Sink.as_history (ScalarHistory.get_latest name)).

Definition get_history (name : string) : M t (list float) :=
self ← get;
at_ (_scalar_history self) (Sink.as_history (ScalarHistory.get_history name)).
End methods.
End Monitors.

(** ** Vocabulary of the properties *)

(** The calls made to the sink at index [i]. *)
Definition calls_to (i : nat) (cs : list (nat * Call)) : list Call :=
  (filter (λ p, p.1 = i) cs).*2.

(** One round of the same call to [n] sinks, in the order of the list. *)
Definition round (c : Call) (n : nat) : list (nat * Call) :=
  map (λ i, (i, c)) (seq 0 n).

(** What the loop of [put_summary] leaves in a value. *)
Definition normalize_value (val : SummaryValue) : SummaryValue :=
  match value val with
  | simple_value _ => {| tag := Tag.normalize (tag val); value := value val |}
  | other_value _ => val
  end.


Definition all_setup (self : Monitors.t) : Prop :=
  forallb Sink.is_setup (Monitors._monitors self) = true.


(** The calls a client can make on the store, with a float as the value
    recorded; the outcome of a query is dropped here (the caller may have
    caught its [KeyError]), its effect on the store is kept. *)
Inductive StoreCall : Type :=
| DoRecord (name : string) (x : float)
| DoLatest (name : string)
| DoHistory (name : string).

Module Store.
Import ScalarHistory.
Section calls.
Context `{Builtins}.

Definition do_call (c : StoreCall) (o : t) : t :=
  match c with
  | DoRecord name x => (put_scalar name (PyFloat x) o).1
  | DoLatest name => (get_latest name o).1
  | DoHistory name => (get_history name o).1
  end.

Definition after_calls (cs : list StoreCall) (o : t) : t :=
  fold_left (λ o c, do_call c o) cs o.

(** The values recorded under [name], in call order. *)
Definition recorded (name : string) (cs : list StoreCall) : list float :=
  omap (λ c, match c with
             | DoRecord n x => if decide (n = name) then Some x else None
             | _ => None
             end) cs.

(** What the dictionary holds for [name]; a missing entry and an empty
    one are the same history. *)
Definition view (o : t) (name : string) : list float :=
  match _dic o with
  | Some d => default [] (d !! name)
  | None => []
  end.

Definition ready (o : t) : Prop := is_Some (_dic o).

End calls.
End Store.

(** The pending row of the JSON writer with the two counters written into
    it, the epoch number first. *)
Definition stamp (now : TrainerState) (row : gmap string Json) : gmap string Json :=
  <["global_step" := JInt (global_step now)]>
    (<["epoch_num" := JInt (epoch_num now)]> row).

(** A JSON writer that went through [setup_graph] and holds the rows
    [rows] and the pending row [pending]. *)
Definition writer_holds (self : JSONWriter.t) (fname : string)
    (rows : list Json) (pending : gmap string Json) : Prop :=
  is_Some (JSONWriter.trainer self)
  ∧ JSONWriter._fname self = Some fname
  ∧ JSONWriter._stats self = Some (JList rows)
  ∧ JSONWriter._stat_now self = Some pending.

(** The reading of "setup calls [setup_graph] on every sink of the list,
    in order": one round of [CallSetupGraph] over the whole list. *)
Definition setup_reaches_every_sink (self : Monitors.t) (tr : TrainerRef) : Prop :=
  Monitors.calls (Monitors.setup_graph tr self).1
  = Monitors.calls self ++ round (CallSetupGraph tr) (length (Monitors._monitors self)).

(** The reading of "every sink observes exactly one consumeScalar(name,
    value) call and exactly one record whose only scalar field is (name,
    value)": [put_scalar name x] returns, and the calls it makes to each
    sink are these two, the record holding [x] itself. *)
Definition record_holds_the_value `{Builtins} (now : TrainerState)
    (self : Monitors.t) (name : string) (x : float) : Prop :=
  ∃ (h' : Monitors.t) (new : list (nat * Call)),
    Monitors.put_scalar now name (PyFloat x) self = (h', Ok tt)
    ∧ Monitors.calls h' = Monitors.calls self ++ new
    ∧ ∀ i, (i < length (Monitors._monitors self))%nat →
           calls_to i new
           = [CallPutScalar name (PyFloat x);
              CallPutSummary [{| tag := name; value := simple_value x |}]].



(** [c in s] *)
Fixpoint contains (c : ascii) (s : string) : bool :=
  match s with
  | EmptyString => false
  | String a s' => Ascii.eqb a c || contains c s'
  end.

(** A hub whose list is the caller's sinks followed by the internal store,
    every one of them set up. *)
Definition hub_holds (self : Monitors.t) (sinks : list Monitor)
    (store : ScalarHistory.t) : Prop :=
  Monitors._monitors self = sinks ++ [AScalarHistory store] ∧ all_setup self.

(** The values a record carries for the series [name]: its scalar fields
    whose normalized tag is [name], in the order of the record. *)
Definition scalars_of (name : string) (summary : Summary) : list float :=
  omap (λ val, match value val with
               | simple_value x =>
                   if decide (Tag.normalize (tag val) = name) then Some x else None
               | other_value _ => None
               end) summary.

(** The calls the training loop makes on the hub to push data, with a
    float as the scalar pushed and a decoded record. *)
Inductive HubCall : Type :=
| HubPut (name : string) (x : float)
| HubPutSummary (summary : Summary).

Module Hub.
Section calls.
Context `{Builtins}.
Variable now : TrainerState.

Definition do_call (c : HubCall) (h : Monitors.t) : Monitors.t :=
  match c with
  | HubPut name x => (Monitors.put now name (PyFloat x) h).1
  | HubPutSummary summary => (Monitors.put_summary now (ArgSummary summary) h).1
  end.

Definition after_calls (cs : list HubCall) (h : Monitors.t) : Monitors.t :=
  fold_left (λ h c, do_call c h) cs h.
End calls.

(** The values pushed for the series [name], in call order. *)
Definition pushed (name : string) (cs : list HubCall) : list float :=
  flat_map (λ c, match c with
                 | HubPut n x => if decide (n = name) then [x] else []
                 | HubPutSummary summary => scalars_of name summary
                 end) cs.
End Hub.

(** The calls the training loop makes on a JSON writer: a scalar to
    consume, a step trigger, an epoch trigger, the last two with the
    trainer's counters and the behaviour of the disk at that moment. *)
Inductive WriterCall : Type :=
| WPut (name : string) (x : float)
| WStep (now : TrainerState) (io : JSONWriter.IOOutcome)
| WEpoch (now : TrainerState) (io : JSONWriter.IOOutcome).

Module Writer.
Section calls.
Context `{Builtins}.

Definition do_call (c : WriterCall) (s : World * JSONWriter.t) : World * JSONWriter.t :=
  match c with
  | WPut name x => (s.1, (JSONWriter.put_scalar name (PyFloat x) s.2).1)
  | WStep now io => (JSONWriter._trigger_step now io s).1
  | WEpoch now io => (JSONWriter._trigger_epoch now io s).1
  end.

Definition after_calls (cs : list WriterCall) (s : World * JSONWriter.t)
    : World * JSONWriter.t :=
  fold_left (λ s c, do_call c s) cs s.
End calls.

(** The file [fname] of [w] is as in [w0], or it is a whole document: a
    list of rows that starts with [rows0] and is the beginning of [rows]. *)
Definition file_tracks (w0 w : World) (fname : string) (rows0 rows : list Json) : Prop :=
  files w !! fname = files w0 !! fname
  ∨ ∃ written, files w !! fname = Some (JsonText (JList written))
               ∧ rows0 `prefix_of` written ∧ written `prefix_of` rows.

(** What the canonical file holds after one [_write_stat] of [doc], by the
    behaviour of the disk: the document when the move succeeds or fails
    after the copy, a truncated file when the copy fails midway, what it
    held before otherwise. *)
Definition canonical_after (io : JSONWriter.IOOutcome) (doc : FileData)
    (before : option FileData) : option FileData :=
  match io with
  | JSONWriter.IoOk | JSONWriter.IoMoveUnlinkFails => Some doc
  | JSONWriter.IoMoveCopyFails => Some Garbage
  | JSONWriter.IoOpenFails | JSONWriter.IoDumpFails | JSONWriter.IoMoveFails => before
  end.

(** The disk does not fail in the middle of the copy that a move falls
    back to, the one failure that truncates the canonical file. *)
Definition copies_whole (io : JSONWriter.IOOutcome) : bool :=
  match io with
  | JSONWriter.IoMoveCopyFails => false
  | _ => true
  end.

Definition flushes_whole (c : WriterCall) : bool :=
  match c with
  | WPut _ _ => true
  | WStep _ io | WEpoch _ io => copies_whole io
  end.

(** The last value put under [name] in a run of scalars. *)
Definition last_put (name : string) (puts : list (string * float)) : option float :=
  last (omap (λ p : string * float,
                if decide (p.1 = name) then Some p.2 else None) puts).
End Writer.


(** ** A sample environment for closed examples *)

Module Sample.
(** [float()] on the integers and texts the examples use. *)
Definition builtins : Builtins := {|
  float_of_int := λ n,
    match n with
    | 0%Z => Ok 0%float
    | 1%Z => Ok 1%float
    | 3%Z => Ok 3%float
    | _ => Raise OverflowError
    end;
  float_of_str := λ s,
    if String.eqb s "3.5" then Ok 3.5%float
    else if String.eqb s "0.5" then Ok 0.5%float
    else Raise ValueError;
  Summary_FromString := λ data,
    if String.eqb data "" then Ok [] else Raise DecodeError
|}.

Definition now : TrainerState :=
  {| epoch_num := 1; global_step := 2; local_step := 1; steps_per_epoch := 2 |}.

Definition world : World :=
  {| LOG_DIR := Some "/log"; files := ∅; log := [] |}.

Definition world_without_dir : World :=
  {| LOG_DIR := None; files := ∅; log := [] |}.

Definition trainer : TrainerRef := 7.

(** A JSON writer, a printer and an event-file writer after their
    [setup_graph]. *)
Definition writer : JSONWriter.t :=
  (JSONWriter.setup_graph now trainer (world, JSONWriter.new)).1.2.

Definition printer : ScalarPrinter.t :=
  (ScalarPrinter.setup_graph now trainer (ScalarPrinter.__init__ false true)).1.

Definition event_writer : TFSummaryWriter.t :=
  (TFSummaryWriter.setup_graph world trainer TFSummaryWriter.new).1.

Definition sinks : list Monitor :=
  [ANoOpMonitor NoOpMonitor.new; AJSONWriter writer;
   AScalarPrinter printer; ATFSummaryWriter event_writer].

(** A hub over them, after the hub's own setup, and its internal store. *)
Definition hub : Monitors.t :=
  (Monitors.setup_graph trainer (Monitors.__init__ sinks)).1.

Definition store : ScalarHistory.t :=
  {| ScalarHistory.trainer := Some trainer; ScalarHistory._dic := Some ∅ |}.

(** A hub whose printer nobody has set up. *)
Definition hub_with_raw_printer : Monitors.t :=
  Monitors.__init__ [AScalarPrinter (ScalarPrinter.__init__ false true)].

(** The JSON writer with one scalar pending. *)
Definition writer_pending : JSONWriter.t :=
  (JSONWriter.put_scalar (H := builtins) "loss" (PyFloat 0.5) writer).1.
(** A hub, set up, whose second sink is a printer nobody has set up. *)
Definition raw_printer : ScalarPrinter.t := ScalarPrinter.__init__ false true.

Definition hub_with_raw_second : Monitors.t :=
  (Monitors.setup_graph trainer
     (Monitors.__init__ [AJSONWriter writer; AScalarPrinter raw_printer])).1.

(** A world whose [stat.json] holds one row. *)
Definition world_with_rows : World :=
  {| LOG_DIR := Some "/log";
     files := {["/log/stat.json" :=
                  JsonText (JList [JDict {["loss" := JFloat 0.5]}])]};
     log := [] |}.

(** A printer with two values pending. *)
Definition printer_pending : ScalarPrinter.t :=
  ScalarPrinter.set_dic {["loss" := 0.5%float; "acc" := 1%float]} printer.

(** A stand-in for the text of a float. *)
Definition format_5g (x : float) : string := "#".

(** A float that is not a 32-bit float: [1 + 2^-30]. *)
Definition fine : float := 0x1.00000004p+0%float.

(** The first step of an epoch of two steps. *)
Definition first_step : TrainerState :=
  {| epoch_num := 1; global_step := 1; local_step := 0; steps_per_epoch := 2 |}.

(** A JSON writer set up on the world whose [stat.json] holds one row,
    and that world after the setup. *)
Definition writer_resumed : JSONWriter.t :=
  (JSONWriter.setup_graph now trainer (world_with_rows, JSONWriter.new)).1.2.

Definition world_resumed : World :=
  (JSONWriter.setup_graph now trainer (world_with_rows, JSONWriter.new)).1.1.
End Sample.

(** * Properties *)

(** ** The tag rewriting *)

Module TagFacts.
Import Tag.
#[local] Arguments String.append !_ _ / : simpl nomatch.

Lemma length_append (a b : string) :
  String.length (a +:+ b) = String.length a + String.length b.
Proof. induction a as [|c a IH]; simpl; [reflexivity | now rewrite IH]. Qed.























End TagFacts.

(** ** Examples of the tag rewriting *)

Example normalize_ex2 : Tag.normalize "grad/tower0/towerp12/loss" = "grad/loss".
Proof. reflexivity. Qed.
Example normalize_ex3 : Tag.normalize "towertower0/1/x" = "tower1/x".
Proof. reflexivity. Qed.
Example normalize_ex4 : Tag.normalize "-summary" = "".
Proof. reflexivity. Qed.
Example normalize_ex5 : Tag.normalize "tower/loss" = "tower/loss".
Proof. reflexivity. Qed.
Example normalize_ex9 : Tag.normalize "tower0/grad/towerp1/tower23/loss" = "grad/loss".
Proof. reflexivity. Qed.

(** ** The method monad *)

Ltac unfold_M :=
  unfold mbind, M_bind, mret, M_ret, modify, get, lift, attr, raise, as_ in *.

(** ** Fan-out *)

Module HubFacts.
Import Monitors.

Lemma calls_to_app (i : nat) (cs1 cs2 : list (nat * Call)) :
  calls_to i (cs1 ++ cs2) = calls_to i cs1 ++ calls_to i cs2.
Proof. unfold calls_to. now rewrite filter_app, fmap_app. Qed.

(** One round over [n] sinks reaches each of them once. *)
Lemma calls_to_round (c : Call) (i k n : nat) :
  calls_to i (map (λ j, (j, c)) (seq k n)) =
  if bool_decide (k ≤ i < k + n) then [c] else [].
Proof.
  revert k. induction n as [|n IH]; intros k; simpl.
  - rewrite bool_decide_eq_false_2 by lia. reflexivity.
  - change (calls_to i ((k, c) :: map (λ j, (j, c)) (seq (S k) n)))
      with (calls_to i ([(k, c)] ++ map (λ j, (j, c)) (seq (S k) n))).
    rewrite calls_to_app, IH. unfold calls_to. rewrite filter_cons, filter_nil.
    simpl. destruct (decide (k = i)) as [->|Hne]; simpl.
    + rewrite (bool_decide_eq_false_2 (S i ≤ i < _)) by lia.
      rewrite bool_decide_eq_true_2 by lia. reflexivity.
    + destruct (decide (S k ≤ i < S k + n)).
      * rewrite !bool_decide_eq_true_2 by lia. reflexivity.
      * rewrite !bool_decide_eq_false_2 by lia. reflexivity.
Qed.

Section loop.
Variable c : Call.
Variable call : M Monitor unit.

Lemma for_each_at (j : nat) : ∀ (k : nat) tr (ms : list Monitor) cs,
  length ms = k + j →
  Forall (λ m, (call m).2 = Ok tt) (drop k ms) →
  for_each (seq k j) (λ i, record_call i c;; at_ i call)
    {| trainer := tr; _monitors := ms; calls := cs |}
  = ({| trainer := tr;
        _monitors := take k ms ++ map (λ m, (call m).1) (drop k ms);
        calls := cs ++ map (λ i, (i, c)) (seq k j) |}, Ok tt).
Proof.
  set (body := λ i, record_call i c;; at_ i call).
  induction j as [|j IH]; intros k tr ms cs Hlen Hok.
  - simpl. rewrite drop_ge, app_nil_r, take_ge, app_nil_r by lia. reflexivity.
  - cbn [seq for_each]. unfold mbind at 1, M_bind at 1.
    destruct (lookup_lt_is_Some_2 ms k ltac:(lia)) as [m Hm].
    unfold body at 1. unfold mbind at 1, M_bind at 1.
    unfold record_call, at_, modify. cbn [_monitors trainer calls].
    rewrite Hm.
    rewrite (drop_S _ _ _ Hm) in Hok.
    apply Forall_cons in Hok as [Hm_ok Hok].
    destruct (call m) as [m' r] eqn:Hcall. simpl in Hm_ok. subst r.
    unfold set_monitors. cbn [_monitors trainer calls].
    rewrite IH.
    + f_equal. f_equal.
      * rewrite (drop_S _ _ _ Hm). cbn [map]. rewrite Hcall. cbn [fst].
        rewrite drop_insert_lt by lia.
        erewrite take_S_r by (apply list_lookup_insert_eq, lookup_lt_Some with m; exact Hm).
        rewrite take_insert_ge by lia.
        rewrite <- app_assoc. reflexivity.
      * rewrite <- app_assoc. reflexivity.
    + rewrite length_insert. lia.
    + rewrite drop_insert_lt by lia. exact Hok.
Qed.

(** A round in which no sink raises: every sink is called once, in
    the order of the list, and takes the state its method leaves. *)
Lemma for_monitors_ok (h : t) :
  Forall (λ m, (call m).2 = Ok tt) (_monitors h) →
  for_monitors c call h
  = ({| trainer := trainer h;
        _monitors := map (λ m, (call m).1) (_monitors h);
        calls := calls h ++ map (λ i, (i, c)) (seq 0 (length (_monitors h))) |},
     Ok tt).
Proof.
  intros Hok. unfold for_monitors. unfold mbind at 1, M_bind at 1, get.
  destruct h as [tr ms cs]. cbn [_monitors trainer calls] in *.
  rewrite for_each_at; [reflexivity | lia | exact Hok].
Qed.
End loop.
End HubFacts.

(** ** The scalar history *)

Module StoreFacts.
Import ScalarHistory Store.

Section store.
Context `{Builtins}.

Lemma getitem_ready (name : string) (o : t) :
  ready o →
  ∃ o', getitem name o = (o', Ok (view o name))
        ∧ ready o' ∧ trainer o' = trainer o
        ∧ (∀ n, view o' n = view o n)
        ∧ ∃ d', _dic o' = Some d' ∧ d' !! name = Some (view o name).
Proof.
  intros [d Hd]. unfold getitem, view. unfold_M. rewrite Hd.
  destruct (d !! name) as [hist|] eqn:Hlook.
  - exists o. rewrite ?Hd.
    split_and!; [reflexivity | red; eauto | reflexivity | reflexivity | eauto].
  - eexists. split; [reflexivity|]. cbn [_dic set_dic trainer].
    split_and!; [red; cbn; eauto | reflexivity | | ].
    + intros n. destruct (decide (name = n)) as [<-|Hne].
      * now rewrite lookup_insert_eq, Hlook.
      * now rewrite lookup_insert_ne.
    + eexists. split; [reflexivity | apply lookup_insert_eq].
Qed.

Lemma view_set_dic (d : gmap string (list float)) (o : t) (n : string) :
  view (set_dic d o) n = default [] (d !! n).
Proof. reflexivity. Qed.

Lemma put_scalar_ready (name : string) (x : float) (o : t) :
  ready o →
  ∃ o', put_scalar name (PyFloat x) o = (o', Ok tt)
        ∧ ready o' ∧ trainer o' = trainer o
        ∧ view o' name = view o name ++ [x]
        ∧ (∀ n, n ≠ name → view o' n = view o n).
Proof.
  intros Hready.
  destruct (getitem_ready name o Hready)
    as (o1 & Hget & Hready1 & Htr & Hview & d1 & Hd1 & Hlook).
  unfold put_scalar. unfold mbind at 1, M_bind at 1. rewrite Hget.
  unfold_M. cbn [py_float]. rewrite Hd1.
  eexists. split; [reflexivity|].
  split_and!; [red; cbn; eauto | exact Htr | |].
  - now rewrite view_set_dic, lookup_insert_eq.
  - intros n Hne. rewrite view_set_dic, lookup_insert_ne by congruence.
    rewrite <- Hview. unfold view. now rewrite Hd1.
Qed.

Lemma get_history_ready (name : string) (o : t) :
  ready o →
  ∃ o', get_history name o = (o', Ok (view o name))
        ∧ ready o' ∧ trainer o' = trainer o ∧ ∀ n, view o' n = view o n.
Proof.
  intros Hready.
  destruct (getitem_ready name o Hready) as (o1 & Hget & ? & ? & ? & _).
  exists o1. unfold get_history. auto.
Qed.

Lemma get_latest_ready (name : string) (o : t) :
  ready o →
  ∃ o', get_latest name o
        = (o', match last (view o name) with
               | Some x => Ok x
               | None => Raise (KeyError ("Invalid key: " +:+ name))
               end)
        ∧ ready o' ∧ trainer o' = trainer o ∧ ∀ n, view o' n = view o n.
Proof.
  intros Hready.
  destruct (getitem_ready name o Hready) as (o1 & Hget & ? & ? & ? & _).
  exists o1. unfold get_latest. unfold mbind, M_bind. rewrite Hget.
  destruct (last (view o name)); auto.
Qed.

Lemma do_call_view (c : StoreCall) (o : t) :
  ready o →
  ready (do_call c o) ∧ ∀ n, view (do_call c o) n = view o n ++ recorded n [c].
Proof.
  intros Hready. destruct c as [name x|name|name]; cbn [do_call recorded omap].
  - destruct (put_scalar_ready name x o Hready) as (o' & -> & ? & _ & Hn & Hother).
    split; [assumption|]. intros n. cbn [fst].
    destruct (decide (name = n)) as [<-|Hne]; cbn.
    + now rewrite decide_True.
    + rewrite decide_False, app_nil_r by assumption. apply Hother. congruence.
  - destruct (get_latest_ready name o Hready) as (o' & -> & ? & _ & Hview).
    split; [assumption|]. intros n. rewrite app_nil_r. apply Hview.
  - destruct (get_history_ready name o Hready) as (o' & -> & ? & _ & Hview).
    split; [assumption|]. intros n. rewrite app_nil_r. apply Hview.
Qed.

Lemma recorded_app (name : string) (cs1 cs2 : list StoreCall) :
  recorded name (cs1 ++ cs2) = recorded name cs1 ++ recorded name cs2.
Proof. apply omap_app. Qed.

Lemma after_calls_view (cs : list StoreCall) : ∀ o : t,
  ready o →
  ready (after_calls cs o)
  ∧ ∀ n, view (after_calls cs o) n = view o n ++ recorded n cs.
Proof.
  induction cs as [|c cs IH]; intros o Hready.
  - split; [assumption|]. intros n. cbn. now rewrite app_nil_r.
  - destruct (do_call_view c o Hready) as [Hready1 Hview1].
    destruct (IH (do_call c o) Hready1) as [Hready2 Hview2].
    split; [exact Hready2|]. intros n.
    change (after_calls (c :: cs) o) with (after_calls cs (do_call c o)).
    rewrite Hview2, Hview1, <- app_assoc.
    now rewrite <- recorded_app.
Qed.

Lemma setup_graph_fresh (tr : TrainerRef) (o : t) :
  setup_graph tr o = ({| trainer := Some tr; _dic := Some ∅ |}, Ok tt).
Proof. reflexivity. Qed.
End store.
End StoreFacts.

(** ** What a put does to a sink that has been set up *)

Module SinkFacts.
Import Sink.

Section sinks.
Context `{Builtins}.
Variable now : TrainerState.

Lemma sink_put_scalar_setup (name : string) (x : float) (m : Monitor) :
  is_setup m = true →
  (put_scalar name (PyFloat x) m).2 = Ok tt
  ∧ is_setup (put_scalar name (PyFloat x) m).1 = true.
Proof.
  destruct m as [o|o|o|o|o]; cbn [is_setup put_scalar]; intros Hs.
  - split; reflexivity.
  - split; [reflexivity | exact Hs].
  - apply bool_decide_eq_true in Hs as [d Hd].
    unfold JSONWriter.put_scalar. unfold_M. cbn [py_float]. rewrite Hd.
    split; reflexivity.
  - apply bool_decide_eq_true in Hs as [d Hd].
    unfold ScalarPrinter.put_scalar. unfold_M. cbn [py_float]. rewrite Hd.
    split; reflexivity.
  - apply bool_decide_eq_true in Hs.
    destruct (StoreFacts.put_scalar_ready name x o Hs) as (o' & Heq & Hready & _).
    unfold as_. rewrite Heq. split; [reflexivity|].
    cbn. now apply bool_decide_eq_true.
Qed.

Lemma sink_put_summary_setup (summary : Summary) (m : Monitor) :
  is_setup m = true →
  (put_summary now summary m).2 = Ok tt
  ∧ is_setup (put_summary now summary m).1 = true.
Proof.
  destruct m as [o|o|o|o|o]; cbn [is_setup put_summary]; intros Hs;
    try (split; [reflexivity | exact Hs]).
  apply andb_true_iff in Hs as [Htr Hw].
  apply bool_decide_eq_true in Htr as [tr Htr].
  apply bool_decide_eq_true in Hw as [fw Hw].
  unfold TFSummaryWriter.put_summary. unfold_M. rewrite Hw, Htr.
  split; [reflexivity|]. cbn. rewrite Htr. reflexivity.
Qed.

(** The summary channel leaves the scalar history as it is. *)
Lemma put_summary_history (summary : Summary) (o : ScalarHistory.t) :
  put_summary now summary (AScalarHistory o) = (AScalarHistory o, Ok tt).
Proof. reflexivity. Qed.

Lemma put_scalar_history (name : string) (x : float) (o : ScalarHistory.t) :
  Store.ready o →
  ∃ o', put_scalar name (PyFloat x) (AScalarHistory o) = (AScalarHistory o', Ok tt)
        ∧ Store.ready o'
        ∧ Store.view o' name = Store.view o name ++ [x]
        ∧ ∀ n, n ≠ name → Store.view o' n = Store.view o n.
Proof.
  intros Hready.
  destruct (StoreFacts.put_scalar_ready name x o Hready)
    as (o' & Heq & ? & _ & ? & ?).
  exists o'. cbn [put_scalar]. unfold as_. rewrite Heq. auto.
Qed.

Lemma Forall_put_scalar_ok (name : string) (x : float) (ms : list Monitor) :
  forallb is_setup ms = true →
  Forall (λ m, (put_scalar name (PyFloat x) m).2 = Ok tt) ms
  ∧ forallb is_setup (map (λ m, (put_scalar name (PyFloat x) m).1) ms) = true.
Proof.
  induction ms as [|m ms IH]; cbn [forallb map]; intros Hs.
  - split; [constructor | reflexivity].
  - apply andb_true_iff in Hs as [Hm Hms].
    destruct (sink_put_scalar_setup name x m Hm) as [Hok Hkeep].
    destruct (IH Hms) as [Hoks Hkeeps].
    split; [now constructor | now rewrite Hkeep, Hkeeps].
Qed.

Lemma Forall_put_summary_ok (summary : Summary) (ms : list Monitor) :
  forallb is_setup ms = true →
  Forall (λ m, (put_summary now summary m).2 = Ok tt) ms
  ∧ forallb is_setup (map (λ m, (put_summary now summary m).1) ms) = true.
Proof.
  induction ms as [|m ms IH]; cbn [forallb map]; intros Hs.
  - split; [constructor | reflexivity].
  - apply andb_true_iff in Hs as [Hm Hms].
    destruct (sink_put_summary_setup summary m Hm) as [Hok Hkeep].
    destruct (IH Hms) as [Hoks Hkeeps].
    split; [now constructor | now rewrite Hkeep, Hkeeps].
Qed.
End sinks.
End SinkFacts.

(** ** The hub on sinks that have been set up *)

Module DispatchFacts.
Import Monitors HubFacts.


Section hub.
Context `{Builtins}.
Variable now : TrainerState.

Lemma dispatch_put_scalar_setup (name : string) (x : float) (h : t) :
  all_setup h →
  _dispatch_put_scalar name (PyFloat x) h
  = ({| trainer := trainer h;
        _monitors := map (λ m, (Sink.put_scalar name (PyFloat x) m).1) (_monitors h);
        calls := calls h ++ round (CallPutScalar name (PyFloat x)) (length (_monitors h)) |},
     Ok tt).
Proof.
  intros Hs. apply for_monitors_ok.
  now apply SinkFacts.Forall_put_scalar_ok.
Qed.

Lemma dispatch_put_summary_setup (summary : Summary) (h : t) :
  all_setup h →
  _dispatch_put_summary now summary h
  = ({| trainer := trainer h;
        _monitors := map (λ m, (Sink.put_summary now summary m).1) (_monitors h);
        calls := calls h ++ round (CallPutSummary summary) (length (_monitors h)) |},
     Ok tt).
Proof.
  intros Hs. apply for_monitors_ok.
  now apply SinkFacts.Forall_put_summary_ok.
Qed.

Lemma put_scalar_setup (name : string) (x : float) (h : t) :
  all_setup h →
  put_scalar now name (PyFloat x) h
  = ({| trainer := trainer h;
        _monitors :=
          map (λ m, (Sink.put_summary now [{| tag := name; value := simple_value (to_float32 x) |}] m).1)
            (map (λ m, (Sink.put_scalar name (PyFloat x) m).1) (_monitors h));
        calls :=
          calls h
          ++ round (CallPutScalar name (PyFloat x)) (length (_monitors h))
          ++ round (CallPutSummary [{| tag := name; value := simple_value (to_float32 x) |}])
                   (length (_monitors h)) |},
     Ok tt).
Proof.
  intros Hs. unfold put_scalar. unfold mbind at 1, M_bind at 1.
  rewrite dispatch_put_scalar_setup by assumption.
  unfold mbind, M_bind, lift. cbn [Summary_add].
  rewrite dispatch_put_summary_setup.
  - cbn [trainer _monitors calls]. rewrite length_map, <- app_assoc. reflexivity.
  - red. cbn [_monitors]. now apply SinkFacts.Forall_put_scalar_ok.
Qed.



(** The queries of the hub go to the store at the end of the list. *)
Lemma get_history_store (name : string) tr (sinks : list Monitor)
    (o : ScalarHistory.t) cs :
  Store.ready o →
  (get_history name {| trainer := tr; _monitors := sinks ++ [AScalarHistory o];
                       calls := cs |}).2
  = Ok (Store.view o name).
Proof.
  intros Hready. unfold get_history, at_, _scalar_history. unfold_M.
  cbn [_monitors]. rewrite length_app, Nat.add_1_r. cbn [Nat.pred length].
  rewrite list_lookup_middle by reflexivity.
  cbn [Sink.as_history]. unfold_M.
  destruct (StoreFacts.get_history_ready name o Hready) as (o' & -> & _).
  reflexivity.
Qed.

Lemma get_latest_store (name : string) tr (sinks : list Monitor)
    (o : ScalarHistory.t) cs :
  Store.ready o →
  (get_latest name {| trainer := tr; _monitors := sinks ++ [AScalarHistory o];
                      calls := cs |}).2
  = match last (Store.view o name) with
    | Some x => Ok x
    | None => Raise (KeyError ("Invalid key: " +:+ name))
    end.
Proof.
  intros Hready. unfold get_latest, at_, _scalar_history. unfold_M.
  cbn [_monitors]. rewrite length_app, Nat.add_1_r. cbn [Nat.pred length].
  rewrite list_lookup_middle by reflexivity.
  cbn [Sink.as_history]. unfold_M.
  destruct (StoreFacts.get_latest_ready name o Hready) as (o' & -> & _).
  reflexivity.
Qed.

(** Each sink is reached once by a round, and no index beyond the list. *)
Lemma calls_to_two_rounds (c1 c2 : Call) (n i : nat) :
  calls_to i (round c1 n ++ round c2 n) = if bool_decide (i < n) then [c1; c2] else [].
Proof.
  unfold round. rewrite calls_to_app, !calls_to_round.
  destruct (decide (i < n)).
  - rewrite !bool_decide_eq_true_2 by lia. reflexivity.
  - rewrite !bool_decide_eq_false_2 by lia. reflexivity.
Qed.
End hub.
End DispatchFacts.

(** ** The JSON writer *)

Module JSONFacts.
Import JSONWriter.

Lemma push_empty (now : TrainerState) (io : IOOutcome) (s : World * t)
    (d : gmap string Json) :
  _stat_now s.2 = Some d → size d = 0 → _push now io s = (s, Ok tt).
Proof.
  intros Hd Hsize. unfold _push, self_. unfold_M. rewrite Hd, Hsize. reflexivity.
Qed.

(** Writing the file leaves the object as it is. *)
Lemma write_stat_self (io : IOOutcome) (s : World * t) :
  (_write_stat io s).1.2 = s.2.
Proof.
  unfold _write_stat, self_, on_world. unfold_M. destruct s as [w self]. cbn.
  destruct (_fname self); cbn; [|reflexivity].
  destruct (_stats self); cbn; [|reflexivity].
  destruct io; reflexivity.
Qed.

Lemma write_stat_ok (io : IOOutcome) (w : World) (self : t) (fname : string)
    (stats : Json) :
  _fname self = Some fname → _stats self = Some stats →
  (_write_stat io (w, self)).2 = Ok tt
  ∧ (io = IoOk →
     files (_write_stat io (w, self)).1.1 !! fname = Some (JsonText stats)).
Proof.
  intros Hf Hs. unfold _write_stat, self_, on_world. unfold_M. cbn.
  rewrite Hf. cbn. rewrite Hs.
  destruct io; (split; [reflexivity|]); try discriminate.
  intros _. cbn. apply lookup_insert_eq.
Qed.

(** A flush with something pending: the row is stamped, appended, the
    pending row is emptied, and the file is written. *)
Lemma push_nonempty (now : TrainerState) (io : IOOutcome) (w : World) (self : t)
    (fname : string) (rows : list Json) (pending : gmap string Json) :
  writer_holds self fname rows pending → size pending ≠ 0 →
  _push now io (w, self)
  = _write_stat io
      (w, set_stat_now ∅ (set_stats (JList (rows ++ [JDict (stamp now pending)])) self)).
Proof.
  intros ([tr Htr] & Hf & Hs & Hd) Hsize.
  destruct self as [tr0 dir fn stats stat_now gs total]. cbn in Htr, Hf, Hs, Hd. subst.
  unfold _push, stats_append, self_, on_self. unfold_M. cbn [snd fst _stat_now trainer].
  destruct (size pending) as [|n] eqn:Hn; [congruence|]. reflexivity.
Qed.

(** After a flush that returned, nothing is pending: the next flush does
    nothing at all. *)
Lemma push_twice (now now' : TrainerState) (io io' : IOOutcome) (s : World * t) :
  (_push now io s).2 = Ok tt →
  _push now' io' (_push now io s).1 = ((_push now io s).1, Ok tt).
Proof.
  destruct s as [w self].
  destruct self as [tr dir fn stats stat_now gs total].
  unfold _push, stats_append, _write_stat, self_, on_self, on_world. unfold_M.
  cbn [snd fst _stat_now trainer _stats _fname set_stat_now set_stats].
  destruct stat_now as [d|]; [|discriminate].
  destruct (size d) as [|n] eqn:Hn.
  - cbn. rewrite Hn. reflexivity.
  - cbn [Nat.eqb negb].
    destruct tr; [|discriminate].
    destruct stats as [stats|]; [|discriminate].
    destruct stats as [| | | | |rows|]; try discriminate.
    destruct fn; [|discriminate].
    destruct io; intros _; reflexivity.
Qed.
End JSONFacts.

(** * The claims *)

(** C3: after [setup_graph] and any sequence of calls on the scalar-history
    store, [get_history name] returns exactly the values recorded under
    [name], in call order (whatever was recorded or queried in between under
    any name); in particular a run of [record(name, v1), record(name, v2), ...]
    gives back [v1, v2, ...], and a name with nothing recorded gives the
    empty list, not an error. *)
Theorem C3_history_is_what_was_recorded `{Builtins}
    (tr : TrainerRef) (o : ScalarHistory.t) (name : string) :
  let fresh := (ScalarHistory.setup_graph tr o).1 in
  (∀ cs : list StoreCall,
     (ScalarHistory.get_history name (Store.after_calls cs fresh)).2
     = Ok (Store.recorded name cs))
  ∧ (∀ vs : list float,
       (ScalarHistory.get_history name
          (Store.after_calls (map (DoRecord name) vs) fresh)).2 = Ok vs)
  ∧ (ScalarHistory.get_history name fresh).2 = Ok [].
Proof.
  intros fresh.
  assert (Hgen : ∀ cs : list StoreCall,
            (ScalarHistory.get_history name (Store.after_calls cs fresh)).2
            = Ok (Store.recorded name cs)).
  { intros cs.
    assert (Hfresh : Store.ready fresh) by (red; cbn; eauto).
    destruct (StoreFacts.after_calls_view cs fresh Hfresh) as [Hready Hview].
    destruct (StoreFacts.get_history_ready name _ Hready) as (o' & -> & _).
    cbn [snd]. now rewrite Hview. }
  split_and!.
  - exact Hgen.
  - intros vs. rewrite Hgen. f_equal.
    induction vs as [|v vs IH]; [reflexivity|].
    cbn. rewrite decide_True by reflexivity. f_equal. exact IH.
  - exact (Hgen []).
Qed.

(** C2: on the scalar-history store, after [setup_graph] and any sequence
    of calls, [get_latest name] returns the last element of what
    [get_history name] returns when a value has been recorded under [name],
    and raises [KeyError] when none has, also when the entry exists because
    an earlier query created it. *)
Theorem C2_latest_is_last_or_KeyError `{Builtins}
    (tr : TrainerRef) (o : ScalarHistory.t) (cs : list StoreCall) (name : string) :
  let store := Store.after_calls cs (ScalarHistory.setup_graph tr o).1 in
  ∃ hist : list float,
    (ScalarHistory.get_history name store).2 = Ok hist
    ∧ hist = Store.recorded name cs
    ∧ (ScalarHistory.get_latest name store).2
      = match last hist with
        | Some x => Ok x
        | None => Raise (KeyError ("Invalid key: " +:+ name))
        end
    ∧ (ScalarHistory.get_latest name (ScalarHistory.get_history name store).1).2
      = (ScalarHistory.get_latest name store).2.
Proof.
  intros store.
  assert (Hfresh : Store.ready (ScalarHistory.setup_graph tr o).1) by (red; cbn; eauto).
  destruct (StoreFacts.after_calls_view cs _ Hfresh) as [Hready Hview].
  fold store in Hready, Hview.
  assert (Hv : Store.view store name = Store.recorded name cs) by now rewrite Hview.
  exists (Store.view store name).
  destruct (StoreFacts.get_history_ready name store Hready)
    as (o1 & Hhist & Hready1 & _ & Hview1).
  destruct (StoreFacts.get_latest_ready name store Hready) as (o2 & Hlat & _).
  destruct (StoreFacts.get_latest_ready name o1 Hready1) as (o3 & Hlat1 & _).
  rewrite Hhist, Hlat. cbn [fst snd]. rewrite Hlat1. cbn [snd]. rewrite Hview1.
  split_and!; reflexivity || assumption.
Qed.

(** C1 (as amended): on a hub whose sinks have been set up,
    [put_scalar name x] returns, and the calls it makes are such that every
    sink of the list (the scalar history at its end included) gets
    [put_scalar(name, x)] exactly once and then [put_summary] exactly once,
    with the summary whose only value is [name] with [x] narrowed to a
    32-bit float; nothing is delivered twice and nothing goes to an index
    outside the list.  The history of [name] in the internal store grows
    by exactly [x], not narrowed. *)
Theorem C1_put_scalar_reaches_each_sink_once `{Builtins} (now : TrainerState)
    (h : Monitors.t) (sinks : list Monitor) (store : ScalarHistory.t)
    (name : string) (x : float) :
  Monitors._monitors h = sinks ++ [AScalarHistory store] →
  all_setup h →
  ∃ (h' : Monitors.t) (new : list (nat * Call)),
    Monitors.put_scalar now name (PyFloat x) h = (h', Ok tt)
    ∧ Monitors.calls h' = Monitors.calls h ++ new
    ∧ (∀ i, (i < length (Monitors._monitors h))%nat →
         calls_to i new
         = [CallPutScalar name (PyFloat x);
            CallPutSummary [{| tag := name; value := simple_value (to_float32 x) |}]])
    ∧ (∀ i, (length (Monitors._monitors h) <= i)%nat → calls_to i new = [])
    ∧ ∀ hist, (Monitors.get_history name h).2 = Ok hist →
              (Monitors.get_history name h').2 = Ok (hist ++ [x]).
Proof.
  intros Hms Hs.
  eexists _, _. rewrite DispatchFacts.put_scalar_setup by assumption.
  split_and!; [reflexivity | reflexivity | | |].
  - intros i Hi. rewrite DispatchFacts.calls_to_two_rounds.
    now rewrite bool_decide_eq_true_2.
  - intros i Hi. rewrite DispatchFacts.calls_to_two_rounds.
    rewrite bool_decide_eq_false_2 by lia. reflexivity.
  - destruct h as [tr ms cs]. cbn [Monitors._monitors Monitors.trainer Monitors.calls] in *.
    subst ms. red in Hs. cbn [Monitors._monitors] in Hs.
    rewrite forallb_app in Hs. apply andb_true_iff in Hs as [_ Hstore].
    cbn in Hstore. rewrite andb_true_r in Hstore.
    apply bool_decide_eq_true in Hstore.
    destruct (SinkFacts.put_scalar_history name x store Hstore)
      as (store' & Hput & Hready' & Hview & _).
    intros hist. rewrite DispatchFacts.get_history_store by assumption.
    intros [= <-]. rewrite !map_app. cbn [map]. rewrite Hput. cbn [fst].
    rewrite SinkFacts.put_summary_history. cbn [fst].
    rewrite DispatchFacts.get_history_store by assumption.
    now rewrite Hview.
Qed.


(** C5 (as amended): the hub's [setup_graph] stores the trainer and then
    calls [setup_graph] on the internal scalar history only, the sink at
    the end of the list; the sinks the caller supplied are not called and
    stay as they were. *)
Theorem C5_setup_graph_sets_up_the_store_only (tr : TrainerRef)
    (tr0 : option TrainerRef) (sinks : list Monitor) (store : ScalarHistory.t)
    (cs : list (nat * Call)) :
  Monitors.setup_graph tr
    {| Monitors.trainer := tr0;
       Monitors._monitors := sinks ++ [AScalarHistory store];
       Monitors.calls := cs |}
  = ({| Monitors.trainer := Some tr;
        Monitors._monitors :=
          sinks ++ [AScalarHistory {| ScalarHistory.trainer := Some tr;
                                      ScalarHistory._dic := Some ∅ |}];
        Monitors.calls := cs ++ [(length sinks, CallSetupGraph tr)] |},
     Ok tt).
Proof.
  unfold Monitors.setup_graph, TrainingMonitor.setup_graph, Monitors._setup_graph,
    Monitors.record_call, Monitors.at_, Monitors._scalar_history.
  unfold_M. cbn [Monitors.set_trainer Monitors.trainer Monitors._monitors Monitors.calls].
  rewrite length_app, Nat.add_1_r. cbn [Nat.pred length].
  rewrite list_lookup_middle by reflexivity.
  cbn [Sink.as_history]. unfold as_. rewrite StoreFacts.setup_graph_fresh.
  unfold Monitors.set_monitors. cbn [Monitors.trainer Monitors._monitors Monitors.calls].
  rewrite insert_app_r_alt, Nat.sub_diag by lia. reflexivity.
Qed.



(** C7: the flush of the JSON writer.  With nothing pending it changes
    nothing and appends no row.  A flush made right after one that
    returned changes nothing either: rows, pending row and files are what
    the first flush left.  With something pending, on a writer that has
    been set up, the pending row gets the epoch number and the global
    step, is appended to the rows, the pending row is emptied, and the
    rows are written to the file. *)
Theorem C7_push_is_idempotent (now now' : TrainerState) (io io' : JSONWriter.IOOutcome)
    (w : World) (self : JSONWriter.t) :
  (∀ d, JSONWriter._stat_now self = Some d → size d = 0 →
        JSONWriter._push now io (w, self) = ((w, self), Ok tt))
  ∧ ((JSONWriter._push now io (w, self)).2 = Ok tt →
     JSONWriter._push now' io' (JSONWriter._push now io (w, self)).1
     = ((JSONWriter._push now io (w, self)).1, Ok tt))
  ∧ (∀ fname rows pending,
       writer_holds self fname rows pending → size pending ≠ 0 →
       let rows' := rows ++ [JDict (stamp now pending)] in
       let after := JSONWriter._push now io (w, self) in
       after.2 = Ok tt
       ∧ after.1.2 = JSONWriter.set_stat_now ∅ (JSONWriter.set_stats (JList rows') self)
       ∧ JSONWriter._stats after.1.2 = Some (JList rows')
       ∧ JSONWriter._stat_now after.1.2 = Some ∅
       ∧ (io = JSONWriter.IoOk → files after.1.1 !! fname = Some (JsonText (JList rows')))).
Proof.
  split_and!.
  - intros d Hd Hsize. now apply (JSONFacts.push_empty now io (w, self) d).
  - apply JSONFacts.push_twice.
  - intros fname rows pending Hholds Hsize rows' after. subst after.
    rewrite (JSONFacts.push_nonempty now io w self fname rows pending Hholds Hsize).
    fold rows'. destruct Hholds as (_ & Hf & _ & _).
    set (self' := JSONWriter.set_stat_now ∅ (JSONWriter.set_stats (JList rows') self)).
    destruct (JSONFacts.write_stat_ok io w self' fname (JList rows')) as [Hok Hfile];
      [exact Hf | reflexivity |].
    rewrite JSONFacts.write_stat_self. cbn [snd].
    split_and!; [exact Hok | reflexivity | reflexivity | reflexivity | exact Hfile].
Qed.

(** C10: at a flush with something pending, [epoch_num] and [global_step]
    are written into the row after the scalars: whatever name a scalar was
    consumed under, the appended row has the two counters under the
    reserved keys (an integer, not the float consumed under that key) and
    the consumed scalars under every other key; the flush returns without
    raising. *)
Theorem C10_counters_overwrite_scalars `{Builtins} (now : TrainerState)
    (io : JSONWriter.IOOutcome) (w : World) (self : JSONWriter.t) (fname : string)
    (rows : list Json) (pending : gmap string Json) (name : string) (x : float) :
  writer_holds self fname rows pending →
  let consumed := (JSONWriter.put_scalar name (PyFloat x) self).1 in
  let flushed := (JSONWriter._push now io (w, consumed)).1.2 in
  ∃ row : gmap string Json,
    (JSONWriter._push now io (w, consumed)).2 = Ok tt
    ∧ JSONWriter._stats flushed = Some (JList (rows ++ [JDict row]))
    ∧ row = stamp now (<[name := JFloat x]> pending)
    ∧ row !! "epoch_num" = Some (JInt (epoch_num now))
    ∧ row !! "global_step" = Some (JInt (global_step now))
    ∧ row !! "epoch_num" ≠ Some (JFloat x)
    ∧ row !! "global_step" ≠ Some (JFloat x)
    ∧ ∀ k, k ≠ "epoch_num" → k ≠ "global_step" →
           row !! k = <[name := JFloat x]> pending !! k.
Proof.
  intros Hholds consumed flushed.
  assert (Hconsumed : consumed = JSONWriter.set_stat_now (<[name := JFloat x]> pending) self).
  { subst consumed. destruct Hholds as (_ & _ & _ & Hd).
    unfold JSONWriter.put_scalar. unfold_M. cbn [py_float]. now rewrite Hd. }
  assert (Hholds' : writer_holds consumed fname rows (<[name := JFloat x]> pending)).
  { rewrite Hconsumed. destruct Hholds as (Htr & Hf & Hs & _).
    split_and!; [exact Htr | exact Hf | exact Hs | reflexivity]. }
  assert (Hsize : size (<[name := JFloat x]> pending) ≠ 0).
  { apply map_size_non_empty_iff, insert_non_empty. }
  exists (stamp now (<[name := JFloat x]> pending)). subst flushed.
  rewrite (JSONFacts.push_nonempty now io w consumed fname rows _ Hholds' Hsize).
  rewrite JSONFacts.write_stat_self. cbn [snd].
  assert (Hok : (JSONWriter._write_stat io
                   (w, JSONWriter.set_stat_now ∅
                         (JSONWriter.set_stats
                            (JList (rows ++ [JDict (stamp now (<[name := JFloat x]> pending))]))
                            consumed))).2 = Ok tt).
  { destruct Hholds' as (_ & Hf & _ & _).
    eapply JSONFacts.write_stat_ok; [exact Hf | reflexivity]. }
  assert (Hep : stamp now (<[name := JFloat x]> pending) !! "epoch_num"
                = Some (JInt (epoch_num now))).
  { unfold stamp. rewrite lookup_insert_ne by discriminate. apply lookup_insert_eq. }
  assert (Hgs : stamp now (<[name := JFloat x]> pending) !! "global_step"
                = Some (JInt (global_step now))).
  { unfold stamp. apply lookup_insert_eq. }
  split_and!; try reflexivity; try assumption.
  - rewrite Hep. discriminate.
  - rewrite Hgs. discriminate.
  - intros k Hk1 Hk2. unfold stamp. now rewrite !lookup_insert_ne by congruence.
Qed.

(** C8: when [logger.LOG_DIR] is not set, the constructors of the event-file
    writer and of the JSON writer return a [NoOpMonitor] and touch no file.
    On that object every method returns without raising and leaves the
    object as it is: [put_summary], [put], [put_scalar], the step and
    epoch triggers and the teardown; [setup_graph] runs the empty
    [_setup_graph] and only keeps the reference to the trainer. *)
Theorem C8_no_directory_gives_a_noop_sink (w : World) :
  truthy (LOG_DIR w) = false →
  (JSONWriter__new__ w).2 = ANoOpMonitor NoOpMonitor.new
  ∧ (TFSummaryWriter__new__ w).2 = ANoOpMonitor NoOpMonitor.new
  ∧ files (JSONWriter__new__ w).1 = files w
  ∧ files (TFSummaryWriter__new__ w).1 = files w
  ∧ ∀ (o : NoOpMonitor.t) (B : Builtins) (now : TrainerState) (tr : TrainerRef)
      (summary : Summary) (name : string) (val : PyVal),
      NoOpMonitor.setup_graph tr o = ({| NoOpMonitor.trainer := Some tr |}, Ok tt)
      ∧ TrainingMonitor._setup_graph o = (o, Ok tt)
      ∧ NoOpMonitor.put_summary summary o = (o, Ok tt)
      ∧ NoOpMonitor.put name val o = (o, Ok tt)
      ∧ NoOpMonitor.put_scalar name val o = (o, Ok tt)
      ∧ NoOpMonitor.trigger_step o = (o, Ok tt)
      ∧ NoOpMonitor.trigger_epoch o = (o, Ok tt)
      ∧ NoOpMonitor.after_train o = (o, Ok tt)
      ∧ Sink.put_scalar name val (ANoOpMonitor o) = (ANoOpMonitor o, Ok tt)
      ∧ Sink.put_summary now summary (ANoOpMonitor o) = (ANoOpMonitor o, Ok tt).
Proof.
  intros Hdir. unfold JSONWriter__new__, TFSummaryWriter__new__. rewrite Hdir.
  split_and!; try reflexivity.
  intros o B now tr summary name val. split_and!; reflexivity.
Qed.

(** * Closed instances *)

(** The claim C5 as the specification states it fails on a hub with one
    printer: the hub's setup calls the internal store (index 1) only. *)
Lemma C5_counterexample :
  ¬ setup_reaches_every_sink Sample.hub_with_raw_printer Sample.trainer.
Proof.
  unfold setup_reaches_every_sink. intros Heq. vm_compute in Heq. discriminate Heq.
Qed.

(** A printer that only the hub could have set up is not: the first
    scalar put through the hub fails in it. *)
Example raw_printer_put_raises :
  (Monitors.put (H := Sample.builtins) Sample.now "x" (PyFloat 0.5)
     (Monitors.setup_graph Sample.trainer Sample.hub_with_raw_printer).1).2
  = Raise (AttributeError "_dic").
Proof. vm_compute. reflexivity. Qed.

Lemma sample_hub_setup : all_setup Sample.hub.
Proof. vm_compute. reflexivity. Defined.

(** The claim C1 as the specification states it fails for a value that
    is not a 32-bit float: the record that follows the scalar holds [1],
    not [1 + 2^-30]. *)
Lemma C1_counterexample :
  ¬ record_holds_the_value (H := Sample.builtins) Sample.now Sample.hub "x"
      Sample.fine.
Proof.
  intros (h' & new & Heq & Hcalls & Hin).
  rewrite (DispatchFacts.put_scalar_setup Sample.now "x" Sample.fine Sample.hub
             sample_hub_setup) in Heq.
  assert (Hnew : new
                 = round (CallPutScalar "x" (PyFloat Sample.fine))
                     (length (Monitors._monitors Sample.hub))
                   ++ round (CallPutSummary
                               [{| tag := "x";
                                   value := simple_value (to_float32 Sample.fine) |}])
                        (length (Monitors._monitors Sample.hub))).
  { apply (app_inv_head (Monitors.calls Sample.hub)). rewrite <- Hcalls.
    injection Heq as <-. reflexivity. }
  subst new.
  specialize (Hin 0 ltac:(vm_compute; lia)).
  rewrite DispatchFacts.calls_to_two_rounds in Hin.
  rewrite bool_decide_eq_true_2 in Hin by (vm_compute; lia).
  apply (f_equal (λ cs, match cs with
                        | [_; CallPutSummary [v]] =>
                            match value v with
                            | simple_value y => PrimFloat.eqb y 1
                            | other_value _ => false
                            end
                        | _ => false
                        end)) in Hin.
  vm_compute in Hin. discriminate Hin.
Qed.



Lemma C1_witness :
  all_setup Sample.hub
  ∧ ∃ h' new,
      Monitors.put_scalar (H := Sample.builtins) Sample.now "x" (PyFloat 3.5) Sample.hub
      = (h', Ok tt)
      ∧ Monitors.calls h' = Monitors.calls Sample.hub ++ new
      ∧ calls_to 1 new
        = [CallPutScalar "x" (PyFloat 3.5);
           CallPutSummary [{| tag := "x"; value := simple_value 3.5 |}]]
      ∧ (Monitors.get_history "x" h').2 = Ok [3.5%float].
Proof.
  split; [exact sample_hub_setup|].
  destruct (C1_put_scalar_reaches_each_sink_once (H := Sample.builtins)
              Sample.now Sample.hub Sample.sinks Sample.store "x" 3.5%float
              eq_refl sample_hub_setup)
    as (h' & new & Heq & Hcalls & Hin & _ & Hhist).
  exists h', new. split_and!; [exact Heq | exact Hcalls | | ].
  - apply Hin. vm_compute. lia.
  - apply (Hhist []). reflexivity.
Defined.




Lemma sample_writer_pending :
  writer_holds Sample.writer_pending "/log/stat.json" [] {["loss" := JFloat 0.5]}.
Proof. split_and!; [eexists; reflexivity | reflexivity | reflexivity | reflexivity]. Defined.

Lemma C7_witness :
  writer_holds Sample.writer_pending "/log/stat.json" [] {["loss" := JFloat 0.5]}
  ∧ let after := JSONWriter._push Sample.now JSONWriter.IoOk
                   (Sample.world, Sample.writer_pending) in
    after.2 = Ok tt
    ∧ JSONWriter._push Sample.now JSONWriter.IoOk after.1 = (after.1, Ok tt)
    ∧ JSONWriter._stats after.1.2
      = Some (JList [JDict (stamp Sample.now {["loss" := JFloat 0.5]})])
    ∧ files after.1.1 !! "/log/stat.json"
      = Some (JsonText (JList [JDict (stamp Sample.now {["loss" := JFloat 0.5]})])).
Proof.
  split; [exact sample_writer_pending|].
  destruct (C7_push_is_idempotent Sample.now Sample.now JSONWriter.IoOk JSONWriter.IoOk
              Sample.world Sample.writer_pending) as (_ & Htwice & Hpending).
  assert (Hsize : size ({["loss" := JFloat 0.5]} : gmap string Json) ≠ 0).
  { intros Hz. vm_compute in Hz. discriminate Hz. }
  destruct (Hpending "/log/stat.json" [] {["loss" := JFloat 0.5]}
              sample_writer_pending Hsize) as (Hok & _ & Hstats & _ & Hfile).
  split_and!; [exact Hok | exact (Htwice Hok) | exact Hstats | exact (Hfile eq_refl)].
Defined.

Lemma sample_writer : writer_holds Sample.writer "/log/stat.json" [] ∅.
Proof. split_and!; [eexists; reflexivity | reflexivity | reflexivity | reflexivity]. Defined.

Lemma C10_witness :
  writer_holds Sample.writer "/log/stat.json" [] ∅
  ∧ ∃ row : gmap string Json,
      JSONWriter._stats
        (JSONWriter._push Sample.now JSONWriter.IoOk
           (Sample.world,
            (JSONWriter.put_scalar (H := Sample.builtins) "epoch_num" (PyFloat 0.5)
               Sample.writer).1)).1.2
      = Some (JList ([] ++ [JDict row]))
      ∧ row !! "epoch_num" = Some (JInt 1).
Proof.
  split; [exact sample_writer|].
  destruct (C10_counters_overwrite_scalars (H := Sample.builtins) Sample.now
              JSONWriter.IoOk Sample.world Sample.writer "/log/stat.json" [] ∅
              "epoch_num" 0.5%float sample_writer)
    as (row & _ & Hstats & _ & Hepoch & _).
  exists row. split; [exact Hstats | exact Hepoch].
Defined.

Lemma C8_witness :
  truthy (LOG_DIR Sample.world_without_dir) = false
  ∧ (JSONWriter__new__ Sample.world_without_dir).2 = ANoOpMonitor NoOpMonitor.new
  ∧ (TFSummaryWriter__new__ Sample.world_without_dir).2 = ANoOpMonitor NoOpMonitor.new
  ∧ NoOpMonitor.put_scalar "x" (PyStr "abc") NoOpMonitor.new = (NoOpMonitor.new, Ok tt).
Proof.
  destruct (C8_no_directory_gives_a_noop_sink Sample.world_without_dir eq_refl)
    as (Hjson & Htf & _ & _ & Hall).
  destruct (Hall NoOpMonitor.new Sample.builtins Sample.now Sample.trainer []
              "x" (PyStr "abc")) as (_ & _ & _ & _ & Hput & _).
  split_and!; [reflexivity | exact Hjson | exact Htf | exact Hput].
Defined.

(** * Further properties of the module *)

(** ** More on the tag rewriting *)

Module TagMore.
Import Tag.
#[local] Arguments String.append !_ _ / : simpl nomatch.

Lemma get_contains (i : nat) (s : string) (c : ascii) :
  String.get i s = Some c → contains c s = true.
Proof.
  revert i. induction s as [|a s IH]; intros i; simpl; [discriminate|].
  destruct i as [|i].
  - intros [= ->]. now rewrite Ascii.eqb_refl.
  - intros Hget. rewrite (IH i Hget). apply orb_true_r.
Qed.

Lemma strip_literal_contains (lit s t : string) (c : ascii) :
  strip_literal lit s = Some t → contains c t = true → contains c s = true.
Proof.
  revert s. induction lit as [|a lit IH]; intros s; simpl.
  - now intros [= ->].
  - destruct s as [|b s]; [discriminate|].
    destruct (Ascii.eqb a b); [|discriminate].
    intros Hs Hc. simpl. rewrite (IH s Hs Hc). apply orb_true_r.
Qed.

(** A match ends in a slash. *)
Lemma match_tower_slash (s : string) (n : nat) :
  match_tower s = Some n → contains "/" s = true.
Proof.
  unfold match_tower.
  destruct (strip_literal "tower" s) as [t|] eqn:Hstrip; [|discriminate].
  destruct (class_run t) as [|k]; [discriminate|].
  destruct (String.get (S k) t) as [c|] eqn:Hget; [|discriminate].
  destruct (Ascii.eqb c "/") eqn:Hc; [|discriminate].
  intros _. apply Ascii.eqb_eq in Hc as ->.
  eapply strip_literal_contains; [exact Hstrip|].
  eapply get_contains; exact Hget.
Qed.

Lemma sub_from_no_slash (s : string) :
  contains "/" s = false → sub_from 0 s = s.
Proof.
  induction s as [|c s IH]; [reflexivity|].
  intros Hno. cbn [sub_from].
  destruct (match_tower (String c s)) as [n|] eqn:Hm.
  - apply match_tower_slash in Hm. congruence.
  - f_equal. apply IH. simpl in Hno. now apply orb_false_elim in Hno as [_ ?].
Qed.

Lemma sub_from_length (s : string) : ∀ k : nat,
  (String.length (sub_from k s) <= String.length s)%nat.
Proof.
  induction s as [|c s IH]; intros k; [reflexivity|].
  cbn [sub_from]. destruct k as [|k].
  - destruct (match_tower (String c s)) as [n|].
    + specialize (IH (Nat.pred n)). simpl. lia.
    + specialize (IH 0). simpl. lia.
  - specialize (IH k). simpl. lia.
Qed.

Lemma substring_length_le (n m : nat) (s : string) :
  (String.length (substring n m s) <= String.length s)%nat.
Proof.
  revert n m. induction s as [|c s IH]; intros n m.
  - destruct n, m; simpl; lia.
  - destruct n as [|n]; [destruct m as [|m]|]; simpl.
    + lia.
    + specialize (IH 0 m). lia.
    + specialize (IH n m). lia.
Qed.
End TagMore.

(** ** More on the hub *)

Module HubMore.
Import Monitors HubFacts DispatchFacts.

Section hub.
Context `{Builtins}.
Variable now : TrainerState.

Lemma all_setup_store (h : t) (sinks : list Monitor) (o : ScalarHistory.t) :
  hub_holds h sinks o → Store.ready o.
Proof.
  intros [Hms Hs]. red in Hs. rewrite Hms, forallb_app in Hs.
  apply andb_true_iff in Hs as [_ Hs]. cbn in Hs. rewrite andb_true_r in Hs.
  now apply bool_decide_eq_true in Hs.
Qed.

Lemma dispatch_scalar_holds (name : string) (x : float) (h : t)
    (sinks : list Monitor) (o : ScalarHistory.t) :
  hub_holds h sinks o →
  ∃ h' sinks' o',
    _dispatch_put_scalar name (PyFloat x) h = (h', Ok tt)
    ∧ hub_holds h' sinks' o'
    ∧ length sinks' = length sinks
    ∧ sinks' = map (λ m, (Sink.put_scalar name (PyFloat x) m).1) sinks
    ∧ calls h' = calls h ++ round (CallPutScalar name (PyFloat x)) (length (_monitors h))
    ∧ ∀ n, Store.view o' n
           = Store.view o n ++ if decide (name = n) then [x] else [].
Proof.
  intros Hh. pose proof (all_setup_store h sinks o Hh) as Hready.
  destruct Hh as [Hms Hs].
  destruct (SinkFacts.put_scalar_history name x o Hready)
    as (o' & Hput & Hready' & Hview & Hother).
  rewrite dispatch_put_scalar_setup by assumption.
  eexists _, _, o'. split; [reflexivity|].
  cbn [_monitors calls].
  assert (Hmap : map (λ m, (Sink.put_scalar name (PyFloat x) m).1) (_monitors h)
                 = map (λ m, (Sink.put_scalar name (PyFloat x) m).1) sinks
                   ++ [AScalarHistory o']).
  { rewrite Hms, map_app. cbn [map]. now rewrite Hput. }
  split_and!; [split | | reflexivity | reflexivity |].
  - exact Hmap.
  - red. cbn [_monitors]. now apply SinkFacts.Forall_put_scalar_ok.
  - apply length_map.
  - intros n. destruct (decide (name = n)) as [<-|Hne].
    + exact Hview.
    + rewrite app_nil_r. apply Hother. congruence.
Qed.

Lemma dispatch_summary_holds (summary : Summary) (h : t)
    (sinks : list Monitor) (o : ScalarHistory.t) :
  hub_holds h sinks o →
  ∃ h' sinks',
    _dispatch_put_summary now summary h = (h', Ok tt)
    ∧ hub_holds h' sinks' o
    ∧ length sinks' = length sinks
    ∧ sinks' = map (λ m, (Sink.put_summary now summary m).1) sinks
    ∧ calls h' = calls h ++ round (CallPutSummary summary) (length (_monitors h)).
Proof.
  intros [Hms Hs].
  rewrite dispatch_put_summary_setup by assumption.
  eexists _, _. split; [reflexivity|]. cbn [_monitors calls].
  split_and!; [split | | reflexivity | reflexivity].
  - rewrite Hms, map_app. cbn [map]. reflexivity.
  - red. cbn [_monitors]. now apply SinkFacts.Forall_put_summary_ok.
  - apply length_map.
Qed.

Lemma put_float_holds (name : string) (x : float) (h : t)
    (sinks : list Monitor) (o : ScalarHistory.t) :
  hub_holds h sinks o →
  ∃ h' sinks' o',
    put now name (PyFloat x) h = (h', Ok tt)
    ∧ hub_holds h' sinks' o'
    ∧ length sinks' = length sinks
    ∧ ∀ n, Store.view o' n
           = Store.view o n ++ if decide (name = n) then [x] else [].
Proof.
  intros Hh.
  destruct (dispatch_scalar_holds name x h sinks o Hh)
    as (h1 & sinks1 & o1 & Heq1 & Hh1 & Hlen1 & _ & _ & Hview).
  destruct (dispatch_summary_holds [{| tag := name; value := simple_value (to_float32 x) |}]
              h1 sinks1 o1 Hh1) as (h2 & sinks2 & Heq2 & Hh2 & Hlen2 & _).
  exists h2, sinks2, o1.
  unfold put, put_scalar. unfold mbind, M_bind, lift. cbn [py_float Summary_add].
  rewrite Heq1, Heq2. split_and!; [reflexivity | assumption | congruence | assumption].
Qed.

Lemma scalars_of_cons (n : string) (val : SummaryValue) (vals : list SummaryValue) :
  scalars_of n (val :: vals)
  = match value val with
    | simple_value x => if decide (Tag.normalize (tag val) = n) then [x] else []
    | other_value _ => []
    end ++ scalars_of n vals.
Proof.
  unfold scalars_of. simpl. destruct (value val) as [x|kind]; [|reflexivity].
  destruct (decide (Tag.normalize (tag val) = n)); reflexivity.
Qed.

Lemma put_values_holds (vals : list SummaryValue) : ∀ (h : t)
    (sinks : list Monitor) (o : ScalarHistory.t),
  hub_holds h sinks o →
  ∃ h' sinks' o',
    put_values vals h = (h', Ok (map normalize_value vals))
    ∧ hub_holds h' sinks' o'
    ∧ length sinks' = length sinks
    ∧ ∀ n, Store.view o' n = Store.view o n ++ scalars_of n vals.
Proof.
  induction vals as [|val vals IH]; intros h sinks o Hh.
  - exists h, sinks, o. cbn. split_and!; try done. intros n. now rewrite app_nil_r.
  - cbn [put_values map]. unfold normalize_value at 1.
    destruct (value val) as [x|kind] eqn:Hval.
    + destruct (dispatch_scalar_holds (Tag.normalize (tag val)) x h sinks o Hh)
        as (h1 & sinks1 & o1 & Heq1 & Hh1 & Hlen1 & _ & _ & Hview1).
      destruct (IH h1 sinks1 o1 Hh1) as (h2 & sinks2 & o2 & Heq2 & Hh2 & Hlen2 & Hview2).
      exists h2, sinks2, o2. unfold mbind, M_bind, mret, M_ret. cbn [tag].
      rewrite Heq1, Heq2. split_and!; [reflexivity | assumption | congruence |].
      intros n. rewrite Hview2, Hview1, scalars_of_cons, Hval, <- app_assoc.
      reflexivity.
    + destruct (IH h sinks o Hh) as (h2 & sinks2 & o2 & Heq2 & Hh2 & Hlen2 & Hview2).
      exists h2, sinks2, o2. unfold mbind, M_bind, mret, M_ret.
      rewrite Heq2. split_and!; [reflexivity | assumption | assumption |].
      intros n. rewrite Hview2, scalars_of_cons, Hval. reflexivity.
Qed.

Lemma put_summary_holds (summary : Summary) (h : t)
    (sinks : list Monitor) (o : ScalarHistory.t) :
  hub_holds h sinks o →
  ∃ h' sinks' o',
    put_summary now (ArgSummary summary) h = (h', Ok (map normalize_value summary))
    ∧ hub_holds h' sinks' o'
    ∧ length sinks' = length sinks
    ∧ ∀ n, Store.view o' n = Store.view o n ++ scalars_of n summary.
Proof.
  intros Hh.
  destruct (dispatch_summary_holds summary h sinks o Hh)
    as (h1 & sinks1 & Heq1 & Hh1 & Hlen1 & _).
  destruct (put_values_holds summary h1 sinks1 o Hh1)
    as (h2 & sinks2 & o2 & Heq2 & Hh2 & Hlen2 & Hview2).
  exists h2, sinks2, o2. unfold put_summary. unfold mbind, M_bind, lift.
  rewrite Heq1, Heq2. split_and!; [reflexivity | assumption | congruence | assumption].
Qed.

Lemma after_calls_holds (cs : list HubCall) : ∀ (h : t)
    (sinks : list Monitor) (o : ScalarHistory.t),
  hub_holds h sinks o →
  ∃ sinks' o',
    hub_holds (Hub.after_calls now cs h) sinks' o'
    ∧ length sinks' = length sinks
    ∧ ∀ n, Store.view o' n = Store.view o n ++ Hub.pushed n cs.
Proof.
  induction cs as [|c cs IH]; intros h sinks o Hh.
  - exists sinks, o. split_and!; try done. intros n. cbn. now rewrite app_nil_r.
  - assert (Hstep : ∃ sinks1 o1,
               hub_holds (Hub.do_call now c h) sinks1 o1
               ∧ length sinks1 = length sinks
               ∧ ∀ n, Store.view o1 n = Store.view o n ++ Hub.pushed n [c]).
    { destruct c as [name x|summary]; cbn [Hub.do_call Hub.pushed flat_map].
      - destruct (put_float_holds name x h sinks o Hh)
          as (h1 & sinks1 & o1 & -> & Hh1 & Hlen1 & Hview1).
        exists sinks1, o1. split_and!; [assumption | assumption |].
        intros n. rewrite app_nil_r. apply Hview1.
      - destruct (put_summary_holds summary h sinks o Hh)
          as (h1 & sinks1 & o1 & -> & Hh1 & Hlen1 & Hview1).
        exists sinks1, o1. split_and!; [assumption | assumption |].
        intros n. rewrite app_nil_r. apply Hview1. }
    destruct Hstep as (sinks1 & o1 & Hh1 & Hlen1 & Hview1).
    destruct (IH _ sinks1 o1 Hh1) as (sinks2 & o2 & Hh2 & Hlen2 & Hview2).
    exists sinks2, o2. split_and!; [exact Hh2 | congruence |].
    intros n. rewrite Hview2, Hview1, <- app_assoc. f_equal.
    cbn [Hub.pushed flat_map]. now rewrite app_nil_r.
Qed.

Lemma get_history_holds (name : string) (h : t) (sinks : list Monitor)
    (o : ScalarHistory.t) :
  hub_holds h sinks o → (get_history name h).2 = Ok (Store.view o name).
Proof.
  intros Hh. pose proof (all_setup_store h sinks o Hh) as Hready.
  destruct Hh as [Hms _]. destruct h as [tr ms cs]. cbn [_monitors] in Hms. subst ms.
  now apply get_history_store.
Qed.

Lemma get_latest_holds (name : string) (h : t) (sinks : list Monitor)
    (o : ScalarHistory.t) :
  hub_holds h sinks o →
  (get_latest name h).2
  = match last (Store.view o name) with
    | Some x => Ok x
    | None => Raise (KeyError ("Invalid key: " +:+ name))
    end.
Proof.
  intros Hh. pose proof (all_setup_store h sinks o Hh) as Hready.
  destruct Hh as [Hms _]. destruct h as [tr ms cs]. cbn [_monitors] in Hms. subst ms.
  now apply get_latest_store.
Qed.
End hub.
End HubMore.

(** ** A round in which a sink raises *)

Module AbortFacts.
Import Monitors.

Section loop.
Variable c : Call.
Variable call : M Monitor unit.

Lemma for_each_at_raise (pre : list Monitor) : ∀ (k j : nat) tr (ms : list Monitor) cs
    (m m' : Monitor) (e : Exn) (post : list Monitor),
  length ms = k + j →
  drop k ms = pre ++ m :: post →
  Forall (λ m, (call m).2 = Ok tt) pre →
  call m = (m', Raise e) →
  for_each (seq k j) (λ i, record_call i c;; at_ i call)
    {| trainer := tr; _monitors := ms; calls := cs |}
  = ({| trainer := tr;
        _monitors := take k ms ++ map (λ m, (call m).1) pre ++ m' :: post;
        calls := cs ++ map (λ i, (i, c)) (seq k (S (length pre))) |}, Raise e).
Proof.
  set (body := λ i, record_call i c;; at_ i call).
  induction pre as [|p pre IH]; intros k j tr ms cs m m' e post Hlen Hdrop Hok Hcall.
  - assert (Hj : j ≠ 0).
    { intros ->. rewrite drop_ge in Hdrop by lia. discriminate. }
    destruct j as [|j]; [congruence|].
    assert (Hm : ms !! k = Some m).
    { rewrite <- (Nat.add_0_r k), <- lookup_drop, Hdrop. reflexivity. }
    cbn [seq for_each]. unfold mbind at 1, M_bind at 1.
    unfold body at 1. unfold mbind at 1, M_bind at 1.
    unfold record_call, at_, modify. cbn [_monitors trainer calls].
    rewrite Hm, Hcall. unfold set_monitors. cbn [_monitors trainer calls map length seq app].
    f_equal. f_equal.
    rewrite (drop_S _ _ _ Hm) in Hdrop. injection Hdrop as <-.
    apply insert_take_drop. apply lookup_lt_Some with m. exact Hm.
  - assert (Hj : j ≠ 0).
    { intros ->. rewrite drop_ge in Hdrop by lia. discriminate. }
    destruct j as [|j]; [congruence|].
    assert (Hp : ms !! k = Some p).
    { rewrite <- (Nat.add_0_r k), <- lookup_drop, Hdrop. reflexivity. }
    apply Forall_cons in Hok as [Hp_ok Hok].
    cbn [seq for_each]. unfold mbind at 1, M_bind at 1.
    unfold body at 1. unfold mbind at 1, M_bind at 1.
    unfold record_call, at_, modify. cbn [_monitors trainer calls].
    rewrite Hp. destruct (call p) as [p' r] eqn:Hcallp. simpl in Hp_ok. subst r.
    unfold set_monitors. cbn [_monitors trainer calls].
    rewrite (drop_S _ _ _ Hp) in Hdrop. injection Hdrop as Hdrop.
    rewrite (IH (S k) j tr (<[k:=p']> ms) _ m m' e post).
    + f_equal. f_equal.
      * cbn [map]. rewrite Hcallp. cbn [fst].
        erewrite take_S_r by (apply list_lookup_insert_eq, lookup_lt_Some with p; exact Hp).
        rewrite take_insert_ge by lia. rewrite <- app_assoc. reflexivity.
      * rewrite <- app_assoc. reflexivity.
    + rewrite length_insert. lia.
    + rewrite drop_insert_lt by lia. exact Hdrop.
    + exact Hok.
    + exact Hcall.
Qed.

Lemma for_monitors_raise (h : t) (pre : list Monitor) (m m' : Monitor) (e : Exn)
    (post : list Monitor) :
  _monitors h = pre ++ m :: post →
  Forall (λ m, (call m).2 = Ok tt) pre →
  call m = (m', Raise e) →
  for_monitors c call h
  = ({| trainer := trainer h;
        _monitors := map (λ m, (call m).1) pre ++ m' :: post;
        calls := calls h ++ map (λ i, (i, c)) (seq 0 (S (length pre))) |}, Raise e).
Proof.
  intros Hms Hok Hcall. unfold for_monitors. unfold mbind at 1, M_bind at 1, get.
  destruct h as [tr ms cs]. cbn [_monitors trainer calls] in *.
  rewrite (for_each_at_raise pre 0 (length ms) tr ms cs m m' e post);
    [reflexivity | lia | exact Hms | exact Hok | exact Hcall].
Qed.
End loop.
End AbortFacts.

(** ** More on the JSON writer *)

Module JSONMore.
Import JSONWriter Writer.
#[local] Arguments String.append !_ _ / : simpl nomatch.

Global Instance IOOutcome_eq_dec : EqDecision IOOutcome.
Proof. solve_decision. Defined.

Lemma tmp_ne (fname : string) : fname ≠ fname +:+ ".tmp".
Proof.
  intros Heq. apply (f_equal String.length) in Heq.
  rewrite TagFacts.length_append in Heq. simpl in Heq. lia.
Qed.

(** [_write_stat] on a writer that has a file name and rows. *)
Lemma write_stat_cases (io : IOOutcome) (w : World) (self : t) (fname : string)
    (stats : Json) :
  _fname self = Some fname → _stats self = Some stats →
  _write_stat io (w, self)
  = ((match io with
      | IoOk => set_files (λ fs, <[fname := JsonText stats]> (delete (fname +:+ ".tmp") fs)) w
      | IoOpenFails => logger "Exception in JSONWriter._write_stat()!" w
      | IoDumpFails =>
          logger "Exception in JSONWriter._write_stat()!"
            (set_files (insert (fname +:+ ".tmp") Garbage) w)
      | IoMoveFails =>
          logger "Exception in JSONWriter._write_stat()!"
            (set_files (insert (fname +:+ ".tmp") (JsonText stats)) w)
      | IoMoveCopyFails =>
          logger "Exception in JSONWriter._write_stat()!"
            (set_files (insert fname Garbage)
               (set_files (insert (fname +:+ ".tmp") (JsonText stats)) w))
      | IoMoveUnlinkFails =>
          logger "Exception in JSONWriter._write_stat()!"
            (set_files (insert fname (JsonText stats))
               (set_files (insert (fname +:+ ".tmp") (JsonText stats)) w))
      end, self), Ok tt).
Proof.
  intros Hf Hs. unfold _write_stat, self_, on_world. unfold_M. cbn.
  rewrite Hf. cbn. rewrite Hs. destruct io; reflexivity.
Qed.

Lemma write_stat_canonical (io : IOOutcome) (w : World) (self : t) (fname : string)
    (stats : Json) :
  _fname self = Some fname → _stats self = Some stats →
  files (_write_stat io (w, self)).1.1 !! fname
  = canonical_after io (JsonText stats) (files w !! fname).
Proof.
  intros Hf Hs. rewrite (write_stat_cases io w self fname stats Hf Hs).
  pose proof (tmp_ne fname) as Hne.
  destruct io; cbn.
  - apply lookup_insert_eq.
  - reflexivity.
  - now rewrite lookup_insert_ne.
  - now rewrite lookup_insert_ne.
  - apply lookup_insert_eq.
  - apply lookup_insert_eq.
Qed.

Lemma put_scalar_holds `{Builtins} (name : string) (x : float) (self : t)
    (fname : string) (rows : list Json) (pending : gmap string Json) :
  writer_holds self fname rows pending →
  put_scalar name (PyFloat x) self
  = (set_stat_now (<[name := JFloat x]> pending) self, Ok tt)
  ∧ writer_holds (set_stat_now (<[name := JFloat x]> pending) self) fname rows
      (<[name := JFloat x]> pending).
Proof.
  intros (Htr & Hf & Hs & Hd). split.
  - unfold put_scalar. unfold_M. cbn [py_float]. now rewrite Hd.
  - split_and!; [exact Htr | exact Hf | exact Hs | reflexivity].
Qed.

(** One flush of a writer that has been set up. *)
Lemma push_holds (now : TrainerState) (io : IOOutcome) (w : World) (self : t)
    (fname : string) (rows : list Json) (pending : gmap string Json) :
  writer_holds self fname rows pending →
  ∃ rows' pending',
    (_push now io (w, self)).2 = Ok tt
    ∧ writer_holds (_push now io (w, self)).1.2 fname rows' pending'
    ∧ _total (_push now io (w, self)).1.2 = _total self
    ∧ (size pending = 0 →
       _push now io (w, self) = ((w, self), Ok tt) ∧ rows' = rows ∧ pending' = pending)
    ∧ (size pending ≠ 0 →
       rows' = rows ++ [JDict (stamp now pending)] ∧ pending' = ∅
       ∧ files (_push now io (w, self)).1.1 !! fname
         = canonical_after io (JsonText (JList rows')) (files w !! fname)).
Proof.
  intros Hholds. destruct (decide (size pending = 0)) as [Hz|Hnz].
  - destruct Hholds as (Htr & Hf & Hs & Hd).
    rewrite (JSONFacts.push_empty now io (w, self) pending Hd Hz).
    exists rows, pending. split_and!; try done.
  - rewrite (JSONFacts.push_nonempty now io w self fname rows pending Hholds Hnz).
    destruct Hholds as (Htr & Hf & Hs & Hd).
    set (rows' := rows ++ [JDict (stamp now pending)]).
    set (self' := set_stat_now ∅ (set_stats (JList rows') self)).
    assert (Hf' : _fname self' = Some fname) by exact Hf.
    assert (Hs' : _stats self' = Some (JList rows')) by reflexivity.
    rewrite (write_stat_cases io w self' fname (JList rows') Hf' Hs').
    exists rows', ∅. cbn [fst snd].
    split_and!; [reflexivity | | reflexivity | done |].
    + split_and!; [exact Htr | exact Hf | reflexivity | reflexivity].
    + intros _. split_and!; [reflexivity | reflexivity |].
      pose proof (write_stat_canonical io w self' fname (JList rows') Hf' Hs') as Hcan.
      rewrite (write_stat_cases io w self' fname (JList rows') Hf' Hs') in Hcan.
      exact Hcan.
Qed.

Lemma trigger_step_cases (now : TrainerState) (io : IOOutcome) (s : World * t)
    (tr : TrainerRef) (total : Z) :
  trainer s.2 = Some tr → _total s.2 = Some total →
  _trigger_step now io s
  = if decide (local_step now = (total - 1)%Z) then (s, Ok tt) else _push now io s.
Proof.
  intros Htr Htotal. unfold _trigger_step, self_. unfold_M. rewrite Htr, Htotal.
  destruct (decide (local_step now = (total - 1)%Z)) as [Heq|Hne].
  - apply Z.eqb_eq in Heq. now rewrite Heq.
  - apply Z.eqb_neq in Hne. now rewrite Hne.
Qed.

(** [setup_graph] with a logger directory, by what is in the file. *)
Lemma setup_graph_cases (now : TrainerState) (tr : TrainerRef) (w : World) (self : t)
    (dir : string) :
  LOG_DIR w = Some dir →
  let fname := path_join dir "stat.json" in
  let found := logger ("Found existing JSON at " +:+ fname
                       +:+ ", will append to it.") w in
  setup_graph now tr (w, self)
  = match files w !! fname with
    | None =>
        ((w, {| trainer := Some tr; _dir := Some dir; _fname := Some fname;
                _stats := Some (JList []); _stat_now := Some ∅;
                _last_gs := Some (-1)%Z; _total := Some (steps_per_epoch now) |}),
         Ok tt)
    | Some (JsonText (JList rows)) =>
        ((found, {| trainer := Some tr; _dir := Some dir; _fname := Some fname;
                    _stats := Some (JList rows); _stat_now := Some ∅;
                    _last_gs := Some (-1)%Z; _total := Some (steps_per_epoch now) |}),
         Ok tt)
    | Some (JsonText j) =>
        ((found, {| trainer := Some tr; _dir := Some dir; _fname := Some fname;
                    _stats := Some j; _stat_now := _stat_now self;
                    _last_gs := _last_gs self; _total := _total self |}),
         Raise AssertionError)
    | Some Garbage =>
        ((found, {| trainer := Some tr; _dir := Some dir; _fname := Some fname;
                    _stats := _stats self; _stat_now := _stat_now self;
                    _last_gs := _last_gs self; _total := _total self |}),
         Raise ValueError)
    end.
Proof.
  intros Hdir fname found.
  unfold setup_graph, _setup_graph, on_self, on_world, self_. unfold_M. cbn.
  rewrite Hdir. fold fname.
  destruct (files w !! fname) as [[j|]|]; cbn; [|reflexivity|reflexivity].
  destruct j; reflexivity.
Qed.
End JSONMore.

(** The writer set up on a file that holds a list of rows. *)
Lemma setup_graph_resumed (now : TrainerState) (tr : TrainerRef) (w : World)
    (self : JSONWriter.t) (dir : string) (rows : list Json) :
  LOG_DIR w = Some dir →
  files w !! JSONWriter.path_join dir "stat.json" = Some (JsonText (JList rows)) →
  writer_holds (JSONWriter.setup_graph now tr (w, self)).1.2
    (JSONWriter.path_join dir "stat.json") rows ∅.
Proof.
  intros Hdir Hfile.
  rewrite (JSONMore.setup_graph_cases now tr w self dir Hdir), Hfile.
  split_and!; [eexists|..]; reflexivity.
Qed.

(** ** Sequences of calls on the JSON writer *)

Module WriterFacts.
Import JSONWriter Writer.

Section calls.
Context `{Builtins}.

(** What every call keeps: the writer holds rows that start with those
    at the beginning; with [strict], the file tracks them as well. *)
Definition keeps (strict : bool) (w0 : World) (fname : string) (rows0 : list Json)
    (s : World * t) : Prop :=
  ∃ rows pending,
    writer_holds s.2 fname rows pending
    ∧ is_Some (_total s.2)
    ∧ rows0 `prefix_of` rows
    ∧ (strict = true → file_tracks w0 s.1 fname rows0 rows).

Lemma push_keeps (strict : bool) (now : TrainerState) (io : IOOutcome) (w0 : World)
    (fname : string) (rows0 : list Json) (s : World * t) :
  (strict = true → copies_whole io = true) →
  keeps strict w0 fname rows0 s → keeps strict w0 fname rows0 (_push now io s).1.
Proof.
  intros Hio (rows & pending & Hholds & Htotal & Hpre & Hfile).
  destruct s as [w self]. cbn [fst snd] in *.
  destruct (JSONMore.push_holds now io w self fname rows pending Hholds)
    as (rows' & pending' & _ & Hholds' & Htotal' & Hzero & Hnonzero).
  destruct (decide (size pending = 0)) as [Hz|Hnz].
  - destruct (Hzero Hz) as (-> & _ & _).
    exists rows, pending. cbn [fst snd]. split_and!; assumption.
  - destruct (Hnonzero Hnz) as (-> & -> & Hcan).
    exists (rows ++ [JDict (stamp now pending)]), ∅.
    split_and!; [exact Hholds' | now rewrite Htotal' | now apply prefix_app_r |].
    intros Hstrict. specialize (Hio Hstrict). specialize (Hfile Hstrict).
    red. rewrite Hcan.
    destruct io; cbn [canonical_after]; try discriminate Hio.
    1, 5: right; eexists;
      split_and!; [reflexivity | now apply prefix_app_r | reflexivity].
    all: destruct Hfile as [Hsame|(written & Hw & Hp1 & Hp2)]; [now left|];
      right; exists written;
      split_and!; [exact Hw | exact Hp1 | now apply prefix_app_r].
Qed.

Lemma do_call_keeps (strict : bool) (c : WriterCall) (w0 : World) (fname : string)
    (rows0 : list Json) (s : World * t) :
  (strict = true → flushes_whole c = true) →
  keeps strict w0 fname rows0 s → keeps strict w0 fname rows0 (do_call c s).
Proof.
  intros Hc Hkeeps. destruct c as [name x|now io|now io]; cbn [do_call].
  - destruct Hkeeps as (rows & pending & Hholds & Htotal & Hpre & Hfile).
    destruct (JSONMore.put_scalar_holds name x s.2 fname rows pending Hholds)
      as [-> Hholds'].
    exists rows, (<[name := JFloat x]> pending). cbn [fst snd].
    split_and!; [exact Hholds' | exact Htotal | exact Hpre | exact Hfile].
  - pose proof Hkeeps as (rows & pending & (Htr & _) & Htotal & _).
    destruct Htr as [tr Htr]. destruct Htotal as [total Htotal].
    rewrite (JSONMore.trigger_step_cases now io s tr total Htr Htotal).
    destruct (decide (local_step now = (total - 1)%Z)); [exact Hkeeps|].
    now apply push_keeps.
  - now apply push_keeps.
Qed.

Lemma after_calls_keeps (strict : bool) (cs : list WriterCall) (w0 : World)
    (fname : string) (rows0 : list Json) : ∀ s : World * t,
  (strict = true → forallb flushes_whole cs = true) →
  keeps strict w0 fname rows0 s → keeps strict w0 fname rows0 (after_calls cs s).
Proof.
  induction cs as [|c cs IH]; intros s Hcs Hkeeps; [exact Hkeeps|].
  apply (IH (do_call c s)).
  - intros Hstrict. specialize (Hcs Hstrict). cbn in Hcs.
    now apply andb_true_iff in Hcs as [_ Hcs].
  - apply do_call_keeps; [|exact Hkeeps].
    intros Hstrict. specialize (Hcs Hstrict). cbn in Hcs.
    now apply andb_true_iff in Hcs as [Hc _].
Qed.

(** A run of scalars between two flushes: the pending row takes, for each
    name, the last value put. *)
Lemma puts_pending (puts : list (string * float)) : ∀ (w : World) (self : t)
    (fname : string) (rows : list Json) (pending : gmap string Json),
  writer_holds self fname rows pending →
  ∃ pending',
    writer_holds (after_calls (map (λ p, WPut p.1 p.2) puts) (w, self)).2
      fname rows pending'
    ∧ (after_calls (map (λ p, WPut p.1 p.2) puts) (w, self)).1 = w
    ∧ ∀ name, pending' !! name
              = match last_put name puts with
                | Some x => Some (JFloat x)
                | None => pending !! name
                end.
Proof.
  induction puts as [|[k x] puts IH] using rev_ind;
    intros w self fname rows pending Hholds.
  - exists pending. cbn. split_and!; done.
  - rewrite map_app. unfold after_calls. rewrite fold_left_app.
    fold (after_calls (map (λ p, WPut p.1 p.2) puts) (w, self)).
    destruct (IH w self fname rows pending Hholds) as (pending1 & Hholds1 & Hw1 & Hlook1).
    cbn [map fold_left do_call fst snd].
    destruct (JSONMore.put_scalar_holds k x _ fname rows pending1 Hholds1)
      as [-> Hholds2].
    exists (<[k := JFloat x]> pending1). cbn [fst snd].
    split_and!; [exact Hholds2 | exact Hw1 |].
    intros name. unfold last_put. rewrite omap_app, last_app. cbn.
    destruct (decide (k = name)) as [->|Hne].
    + now rewrite lookup_insert_eq.
    + rewrite lookup_insert_ne by exact Hne. cbn. apply Hlook1.
Qed.
End calls.
End WriterFacts.

(** ** The printer *)

Module PrinterFacts.
Import ScalarPrinter.

Global Instance by_name_total : Total by_name.
Proof. intros a b. unfold by_name. apply String.leb_total. Qed.

Lemma passes_all (k : string) : passes k = true.
Proof.
  unfold passes, _whitelist, _blacklist.
  rewrite bool_decide_eq_false_2 by apply not_elem_of_empty. reflexivity.
Qed.

Section printing.
Variable format_5g : float → string.

Lemma print_lines (items : list (string * float)) : ∀ (w : World) (self : t),
  for_each items
    (λ kv, if passes kv.1
           then modify (λ s : World * t, (logger (line format_5g kv) s.1, s.2))
           else mret tt) (w, self)
  = (({| LOG_DIR := LOG_DIR w; files := files w;
         log := log w ++ map (line format_5g) items |}, self), Ok tt).
Proof.
  induction items as [|kv items IH]; intros w self.
  - cbn. rewrite app_nil_r. now destruct w.
  - cbn [for_each map]. unfold mbind at 1, M_bind at 1.
    rewrite passes_all. unfold modify at 1. cbn [fst snd].
    rewrite IH. unfold logger. cbn [LOG_DIR files log].
    now rewrite <- app_assoc.
Qed.

Lemma print_stat_cases (w : World) (self : t) (d : gmap string float) :
  _dic self = Some d →
  _print_stat format_5g (w, self)
  = (({| LOG_DIR := LOG_DIR w; files := files w;
         log := log w ++ map (line format_5g) (sorted_items d) |},
      set_dic ∅ self), Ok tt).
Proof.
  intros Hd. unfold _print_stat. unfold mbind at 1, M_bind at 1, attr. cbn [snd].
  rewrite Hd. unfold mbind at 1, M_bind at 1. rewrite print_lines.
  reflexivity.
Qed.
End printing.
End PrinterFacts.

(** * Further theorems *)

(** X1: the tag normalization only deletes characters, and it needs a
    slash to delete anything by the tower rewriting: a tag without a slash
    comes back unchanged from [re.sub], and unchanged from the whole
    normalization unless it ends in [-summary]. *)
Theorem X1_tower_rewriting_needs_a_slash (name : string) :
  (String.length (Tag.re_sub_tower name) <= String.length name)%nat
  ∧ (String.length (Tag.normalize name) <= String.length name)%nat
  ∧ (contains "/" name = false → Tag.re_sub_tower name = name)
  ∧ (contains "/" name = false → Tag.endswith name Tag.suffix = false →
     Tag.normalize name = name).
Proof.
  pose proof (TagMore.sub_from_length name 0) as Hlen.
  split_and!.
  - exact Hlen.
  - unfold Tag.normalize. fold (Tag.re_sub_tower name) in Hlen.
    destruct (Tag.endswith (Tag.re_sub_tower name) Tag.suffix); [|exact Hlen].
    etrans; [apply TagMore.substring_length_le | exact Hlen].
  - apply TagMore.sub_from_no_slash.
  - intros Hno Hsuf. unfold Tag.normalize.
    rewrite (TagMore.sub_from_no_slash name Hno : Tag.re_sub_tower name = name).
    now rewrite Hsuf.
Qed.

(** X2: on a store that has been set up, a [put_scalar] whose value
    [float()] rejects raises that exception and records nothing: every
    history and every latest value reads as before. *)
Theorem X2_failed_record_changes_no_history `{Builtins} (o : ScalarHistory.t)
    (name : string) (val : PyVal) (e : Exn) :
  Store.ready o → py_float val = Raise e →
  (ScalarHistory.put_scalar name val o).2 = Raise e
  ∧ ∀ n, (ScalarHistory.get_history n (ScalarHistory.put_scalar name val o).1).2
         = (ScalarHistory.get_history n o).2
       ∧ (ScalarHistory.get_latest n (ScalarHistory.put_scalar name val o).1).2
         = (ScalarHistory.get_latest n o).2.
Proof.
  intros Hready Hval.
  destruct (StoreFacts.getitem_ready name o Hready)
    as (o1 & Hget & Hready1 & _ & Hview1 & _).
  assert (Hput : ScalarHistory.put_scalar name val o = (o1, Raise e)).
  { unfold ScalarHistory.put_scalar. unfold mbind at 1, M_bind at 1. rewrite Hget.
    unfold mbind, M_bind, lift. now rewrite Hval. }
  rewrite Hput. split; [reflexivity|]. intros n. cbn [fst].
  destruct (StoreFacts.get_history_ready n o Hready) as (? & -> & _).
  destruct (StoreFacts.get_history_ready n o1 Hready1) as (? & -> & _).
  destruct (StoreFacts.get_latest_ready n o Hready) as (? & -> & _).
  destruct (StoreFacts.get_latest_ready n o1 Hready1) as (? & -> & _).
  cbn [snd]. now rewrite Hview1.
Qed.

(** X3: histories only grow.  Whatever a store holds, after any sequence
    of calls the history of a name is what it was, followed by the values
    recorded under that name since, in call order; records under other
    names and queries change nothing of it. *)
Theorem X3_histories_only_grow `{Builtins} (o : ScalarHistory.t)
    (cs : list StoreCall) (name : string) (hist : list float) :
  (ScalarHistory.get_history name o).2 = Ok hist →
  (ScalarHistory.get_history name (Store.after_calls cs o)).2
  = Ok (hist ++ Store.recorded name cs).
Proof.
  intros Hhist.
  assert (Hready : Store.ready o).
  { destruct (ScalarHistory._dic o) as [d|] eqn:Hd; [red; rewrite Hd; eauto|].
    unfold ScalarHistory.get_history, ScalarHistory.getitem in Hhist.
    unfold_M. rewrite Hd in Hhist. discriminate. }
  destruct (StoreFacts.get_history_ready name o Hready) as (o1 & Heq & _).
  rewrite Heq in Hhist. injection Hhist as <-.
  destruct (StoreFacts.after_calls_view cs o Hready) as [Hready' Hview].
  destruct (StoreFacts.get_history_ready name _ Hready') as (o2 & -> & _).
  cbn [snd]. now rewrite Hview.
Qed.

(** X4: on a hub whose sinks are set up, after any sequence of [put]s of
    floats and [put_summary]s of decoded records, [get_history name] is
    what it was followed by the values pushed for [name]: a [put] under
    that name, or a scalar field of a record whose normalized tag is that
    name (so the per-tower copies of a metric land in one series);
    [get_latest name] is the last of them, and the hub has as many sinks
    as before. *)
Theorem X4_hub_history_over_calls `{Builtins} (now : TrainerState)
    (h : Monitors.t) (sinks : list Monitor) (store : ScalarHistory.t)
    (cs : list HubCall) (name : string) (hist : list float) :
  hub_holds h sinks store →
  (Monitors.get_history name h).2 = Ok hist →
  let h' := Hub.after_calls now cs h in
  (Monitors.get_history name h').2 = Ok (hist ++ Hub.pushed name cs)
  ∧ (Monitors.get_latest name h').2
    = match last (hist ++ Hub.pushed name cs) with
      | Some x => Ok x
      | None => Raise (KeyError ("Invalid key: " +:+ name))
      end
  ∧ length (Monitors._monitors h') = length (Monitors._monitors h).
Proof.
  intros Hh Hhist h'.
  rewrite (HubMore.get_history_holds name h sinks store Hh) in Hhist.
  injection Hhist as <-.
  destruct (HubMore.after_calls_holds now cs h sinks store Hh)
    as (sinks' & store' & Hh' & Hlen & Hview).
  fold h' in Hh'.
  rewrite (HubMore.get_history_holds name h' sinks' store' Hh').
  rewrite (HubMore.get_latest_holds name h' sinks' store' Hh').
  rewrite Hview. split_and!; [reflexivity | reflexivity |].
  destruct Hh as [-> _]. destruct Hh' as [-> _]. rewrite !length_app. cbn. lia.
Qed.

(** X5: what [put_summary] does with its argument before it reaches any
    sink.  Something that is neither bytes nor a summary fails the
    assertion; bytes that do not decode raise the decoder's error; in both
    cases no sink is called and the hub is unchanged.  Bytes that decode
    are handled as the decoded record. *)
Theorem X5_put_summary_decodes_or_raises `{Builtins} (now : TrainerState)
    (h : Monitors.t) (data : string) :
  Monitors.put_summary now ArgOther h = (h, Raise AssertionError)
  ∧ match Summary_FromString data with
    | Ok summary =>
        Monitors.put_summary now (ArgBytes data) h
        = Monitors.put_summary now (ArgSummary summary) h
    | Raise e => Monitors.put_summary now (ArgBytes data) h = (h, Raise e)
    end.
Proof.
  split; [reflexivity|].
  unfold Monitors.put_summary. unfold mbind at 1 3, M_bind at 1 3, lift.
  destruct (Summary_FromString data); reflexivity.
Qed.

(** X6: a round stops at the first sink that raises.  When the sinks
    before [m] are set up and [m] raises on [put_scalar], the hub's [put]
    raises the same exception; the sinks up to [m] have been called once
    each, the sinks after [m] (the internal store is always among them or
    is [m] itself) have not been called and are unchanged, and no summary
    has been dispatched to anyone. *)
Theorem X6_fan_out_stops_at_the_first_raise `{Builtins} (now : TrainerState)
    (h : Monitors.t) (pre post : list Monitor) (m m' : Monitor) (e : Exn)
    (name : string) (x : float) :
  Monitors._monitors h = pre ++ m :: post →
  forallb Sink.is_setup pre = true →
  Sink.put_scalar name (PyFloat x) m = (m', Raise e) →
  ∃ h', Monitors.put now name (PyFloat x) h = (h', Raise e)
        ∧ Monitors.calls h'
          = Monitors.calls h ++ round (CallPutScalar name (PyFloat x)) (S (length pre))
        ∧ Monitors._monitors h'
          = map (λ s, (Sink.put_scalar name (PyFloat x) s).1) pre ++ m' :: post.
Proof.
  intros Hms Hpre Hm.
  destruct (SinkFacts.Forall_put_scalar_ok name x pre Hpre) as [Hok _].
  eexists. unfold Monitors.put, Monitors.put_scalar, Monitors._dispatch_put_scalar.
  unfold mbind, M_bind, lift. cbn [py_float].
  rewrite (AbortFacts.for_monitors_raise _ _ h pre m m' e post Hms Hok Hm).
  split_and!; reflexivity.
Qed.

(** X7: what a [put] through the hub leaves in each kind of sink, on a hub
    whose sinks are set up and for a value that [float()] turns into [x]:
    a JSON writer has [x] under [name] in its pending row and the same
    rows; a printer has [x] under [name] in its pending values; an
    event-file writer has one more event at the current global step, the
    summary with the single value [name] with [x] narrowed to a 32-bit
    float, so it can hold another number than the other sinks do; a
    no-op sink is unchanged.  Entries under other names are kept. *)
Theorem X7_what_each_sink_holds_after_put `{Builtins} (now : TrainerState)
    (h : Monitors.t) (name : string) (val : PyVal) (x : float) (i : nat) :
  all_setup h → py_float val = Ok x →
  let after := (Monitors.put now name val h).1 in
  (∀ o d, Monitors._monitors h !! i = Some (AJSONWriter o) →
          JSONWriter._stat_now o = Some d →
          Monitors._monitors after !! i
          = Some (AJSONWriter (JSONWriter.set_stat_now (<[name := JFloat x]> d) o)))
  ∧ (∀ o d, Monitors._monitors h !! i = Some (AScalarPrinter o) →
            ScalarPrinter._dic o = Some d →
            Monitors._monitors after !! i
            = Some (AScalarPrinter (ScalarPrinter.set_dic (<[name := x]> d) o)))
  ∧ (∀ o fw, Monitors._monitors h !! i = Some (ATFSummaryWriter o) →
             TFSummaryWriter._writer o = Some fw →
             Monitors._monitors after !! i
             = Some (ATFSummaryWriter
                       (TFSummaryWriter.set_writer
                          {| TFSummaryWriter.logdir := TFSummaryWriter.logdir fw;
                             TFSummaryWriter.events :=
                               TFSummaryWriter.events fw
                               ++ [([{| tag := name; value := simple_value (to_float32 x) |}],
                                    global_step now)] |} o)))
  ∧ (∀ o, Monitors._monitors h !! i = Some (ANoOpMonitor o) →
          Monitors._monitors after !! i = Some (ANoOpMonitor o)).
Proof.
  intros Hs Hval after.
  assert (Hafter : Monitors._monitors after
                   = (λ m, (Sink.put_summary now [{| tag := name; value := simple_value (to_float32 x) |}]
                              (Sink.put_scalar name (PyFloat x) m).1).1)
                     <$> Monitors._monitors h).
  { subst after. unfold Monitors.put. unfold mbind at 1, M_bind at 1, lift.
    rewrite Hval, DispatchFacts.put_scalar_setup by assumption.
    cbn [fst Monitors._monitors]. rewrite map_map. reflexivity. }
  rewrite Hafter, list_lookup_fmap.
  pose proof Hs as Hall. red in Hall. rewrite forallb_forall in Hall.
  split_and!.
  - intros o d Hi Hd. rewrite Hi. cbn [fmap option_fmap option_map Sink.put_scalar].
    unfold as_, JSONWriter.put_scalar. unfold_M. cbn [py_float]. now rewrite Hd.
  - intros o d Hi Hd. rewrite Hi. cbn [fmap option_fmap option_map Sink.put_scalar].
    unfold as_, ScalarPrinter.put_scalar. unfold_M. cbn [py_float]. now rewrite Hd.
  - intros o fw Hi Hw. rewrite Hi. cbn [fmap option_fmap option_map Sink.put_scalar].
    assert (Hset : Sink.is_setup (ATFSummaryWriter o) = true).
    { apply Hall, list_elem_of_In, list_elem_of_lookup. eauto. }
    cbn in Hset. apply andb_true_iff in Hset as [Htr _].
    apply bool_decide_eq_true in Htr as [tr Htr].
    unfold as_. cbn. unfold TFSummaryWriter.put_summary. unfold_M.
    now rewrite Hw, Htr.
  - intros o Hi. rewrite Hi. reflexivity.
Qed.

(** X8: [JSONWriter.setup_graph] with a logger directory never changes a
    file.  Without a [stat.json] in the directory the writer starts with
    no rows; with one that holds a JSON list it starts with the rows of
    that list (it resumes); one that holds another JSON value fails the
    assertion, and one that is not JSON raises the parser's [ValueError]. *)
Theorem X8_setup_graph_resumes_or_raises (now : TrainerState) (tr : TrainerRef)
    (w : World) (self : JSONWriter.t) (dir : string) :
  LOG_DIR w = Some dir →
  let fname := JSONWriter.path_join dir "stat.json" in
  let after := JSONWriter.setup_graph now tr (w, self) in
  files after.1.1 = files w
  ∧ match files w !! fname with
    | None => after.2 = Ok tt ∧ writer_holds after.1.2 fname [] ∅
    | Some (JsonText (JList rows)) =>
        after.2 = Ok tt ∧ writer_holds after.1.2 fname rows ∅
    | Some (JsonText _) => after.2 = Raise AssertionError
    | Some Garbage => after.2 = Raise ValueError
    end.
Proof.
  intros Hdir fname after. subst after.
  rewrite (JSONMore.setup_graph_cases now tr w self dir Hdir). fold fname.
  destruct (files w !! fname) as [[j|]|].
  - destruct j; (split; [reflexivity|]); try reflexivity.
    split; [reflexivity|]. split_and!; [eexists|..]; reflexivity.
  - split; reflexivity.
  - split; [reflexivity|]. split; [reflexivity|].
    split_and!; [eexists|..]; reflexivity.
Qed.

(** X9: resuming.  When [stat.json] holds a list of rows, a writer set
    up on it, given one scalar and flushed with the disk working, leaves
    in the file the same rows followed by exactly one new row: the scalar
    with the two counters. *)
Theorem X9_resume_appends_one_row `{Builtins} (now now' : TrainerState)
    (tr : TrainerRef) (w : World) (self : JSONWriter.t) (dir : string)
    (rows : list Json) (name : string) (x : float) :
  LOG_DIR w = Some dir →
  files w !! JSONWriter.path_join dir "stat.json" = Some (JsonText (JList rows)) →
  let fname := JSONWriter.path_join dir "stat.json" in
  let s1 := (JSONWriter.setup_graph now tr (w, self)).1 in
  let s2 := (s1.1, (JSONWriter.put_scalar name (PyFloat x) s1.2).1) in
  let s3 := (JSONWriter._push now' JSONWriter.IoOk s2).1 in
  files s3.1 !! fname
  = Some (JsonText (JList (rows ++ [JDict (stamp now' {[name := JFloat x]})])))
  ∧ JSONWriter._stats s3.2
    = Some (JList (rows ++ [JDict (stamp now' {[name := JFloat x]})])).
Proof.
  intros Hdir Hfile fname s1 s2 s3.
  pose proof (setup_graph_resumed now tr w self dir rows Hdir Hfile) as Hholds.
  fold s1 in Hholds.
  destruct (JSONMore.put_scalar_holds name x s1.2 fname rows ∅ Hholds) as [Hput Hholds2].
  assert (Hs2 : s2 = (s1.1, JSONWriter.set_stat_now (<[name := JFloat x]> ∅) s1.2)).
  { subst s2. now rewrite Hput. }
  rewrite insert_empty in Hs2, Hholds2.
  destruct (JSONMore.push_holds now' JSONWriter.IoOk s1.1 _ fname rows _ Hholds2)
    as (rows' & pending' & _ & (_ & _ & Hstats & _) & _ & _ & Hnonzero).
  assert (Hsize : size ({[name := JFloat x]} : gmap string Json) ≠ 0).
  { rewrite map_size_singleton. discriminate. }
  destruct (Hnonzero Hsize) as (-> & _ & Hcan).
  subst s3. rewrite Hs2. split; [exact Hcan | exact Hstats].
Qed.

(** X10: [_write_stat] never raises, and what it leaves on the disk.  On
    a writer with a file name and rows it returns normally whatever the
    disk does, leaves the writer as it is, and touches no other file than
    the canonical one and its [.tmp] sibling.  When the disk works the
    canonical file holds exactly the rows, no temporary file is left and
    nothing is logged.  Every failure is logged.  A failure before the
    move, or a move that fails before it opens the canonical file, leaves
    the canonical file as it was.  The replacement is not atomic, though:
    a move that falls back to a copy and fails in the middle of it leaves
    the canonical file truncated, and one that fails after the copy
    leaves it replaced with the temporary file still there. *)
Theorem X10_write_stat_never_raises (io : JSONWriter.IOOutcome) (w : World)
    (self : JSONWriter.t) (fname : string) (stats : Json) :
  JSONWriter._fname self = Some fname → JSONWriter._stats self = Some stats →
  let after := JSONWriter._write_stat io (w, self) in
  after.2 = Ok tt
  ∧ after.1.2 = self
  ∧ (io = JSONWriter.IoOk →
     files after.1.1 !! fname = Some (JsonText stats)
     ∧ files after.1.1 !! (fname +:+ ".tmp") = None
     ∧ log after.1.1 = log w)
  ∧ (io ≠ JSONWriter.IoOk →
     log after.1.1 = log w ++ ["Exception in JSONWriter._write_stat()!"])
  ∧ (io = JSONWriter.IoOpenFails ∨ io = JSONWriter.IoDumpFails
     ∨ io = JSONWriter.IoMoveFails →
     files after.1.1 !! fname = files w !! fname)
  ∧ (io = JSONWriter.IoMoveCopyFails →
     files after.1.1 !! fname = Some Garbage)
  ∧ (io = JSONWriter.IoMoveUnlinkFails →
     files after.1.1 !! fname = Some (JsonText stats)
     ∧ files after.1.1 !! (fname +:+ ".tmp") = Some (JsonText stats))
  ∧ ∀ other, other ≠ fname → other ≠ fname +:+ ".tmp" →
             files after.1.1 !! other = files w !! other.
Proof.
  intros Hf Hs after. subst after.
  pose proof (JSONMore.write_stat_canonical io w self fname stats Hf Hs) as Hcan.
  rewrite (JSONMore.write_stat_cases io w self fname stats Hf Hs) in *.
  pose proof (JSONMore.tmp_ne fname) as Hne.
  cbn [fst snd] in *. split_and!; [reflexivity | reflexivity | | | | | |].
  - intros ->. split_and!; [exact Hcan | | reflexivity].
    cbn. rewrite lookup_insert_ne by exact Hne. apply lookup_delete_eq.
  - intros Hio. destruct io; [congruence | reflexivity..].
  - intros [->|[->| ->]]; exact Hcan.
  - intros ->. exact Hcan.
  - intros ->. split; [exact Hcan|].
    cbn. rewrite lookup_insert_ne by exact Hne. apply lookup_insert_eq.
  - intros other Ho1 Ho2. destruct io; cbn.
    + rewrite lookup_insert_ne by congruence. now rewrite lookup_delete_ne by congruence.
    + reflexivity.
    + now rewrite lookup_insert_ne by congruence.
    + now rewrite lookup_insert_ne by congruence.
    + now rewrite !lookup_insert_ne by congruence.
    + now rewrite !lookup_insert_ne by congruence.
Qed.

(** X11: the step trigger of the JSON writer leaves the last step of an
    epoch to the epoch trigger.  On the last step ([local_step] is
    [_total - 1]) it does nothing, and the epoch trigger that follows is
    the one flush; on any other step it is a flush, and an epoch trigger
    right after it (when it returned) changes nothing.  Either way what
    was pending is flushed once. *)
Theorem X11_one_flush_at_the_end_of_an_epoch (now now' : TrainerState)
    (io io' : JSONWriter.IOOutcome) (s : World * JSONWriter.t)
    (tr : TrainerRef) (total : Z) :
  JSONWriter.trainer s.2 = Some tr → JSONWriter._total s.2 = Some total →
  let step := JSONWriter._trigger_step now io s in
  (local_step now = (total - 1)%Z →
   step = (s, Ok tt)
   ∧ JSONWriter._trigger_epoch now' io' step.1 = JSONWriter._push now' io' s)
  ∧ (local_step now ≠ (total - 1)%Z →
     step = JSONWriter._push now io s
     ∧ (step.2 = Ok tt → JSONWriter._trigger_epoch now' io' step.1 = (step.1, Ok tt))).
Proof.
  intros Htr Htotal step. subst step.
  rewrite (JSONMore.trigger_step_cases now io s tr total Htr Htotal).
  split.
  - intros Hlast. rewrite decide_True by exact Hlast. split; reflexivity.
  - intros Hnot. rewrite decide_False by exact Hnot. split; [reflexivity|].
    intros Hok. unfold JSONWriter._trigger_epoch.
    now apply JSONFacts.push_twice.
Qed.

(** X12: between two flushes the last write wins.  After a run of
    scalars given to a writer that had nothing pending, the flush appends
    one row that holds, for every name other than the two reserved keys,
    the last value given under that name (and nothing for a name never
    given), together with the two counters; afterwards nothing is
    pending. *)
Theorem X12_flushed_row_holds_the_last_values `{Builtins} (now : TrainerState)
    (io : JSONWriter.IOOutcome) (w : World) (self : JSONWriter.t) (fname : string)
    (rows : list Json) (puts : list (string * float)) :
  writer_holds self fname rows ∅ → puts ≠ [] →
  let consumed := Writer.after_calls (map (λ p, WPut p.1 p.2) puts) (w, self) in
  let flushed := (JSONWriter._push now io consumed).1 in
  ∃ row : gmap string Json,
    JSONWriter._stats flushed.2 = Some (JList (rows ++ [JDict row]))
    ∧ JSONWriter._stat_now flushed.2 = Some ∅
    ∧ row !! "epoch_num" = Some (JInt (epoch_num now))
    ∧ row !! "global_step" = Some (JInt (global_step now))
    ∧ ∀ name, name ≠ "epoch_num" → name ≠ "global_step" →
              row !! name = JFloat <$> Writer.last_put name puts.
Proof.
  intros Hholds Hne consumed flushed.
  destruct (WriterFacts.puts_pending puts w self fname rows ∅ Hholds)
    as (pending & Hholds1 & Hw & Hlook).
  fold consumed in Hholds1, Hw.
  assert (Hsize : size pending ≠ 0).
  { apply map_size_non_empty_iff. intros ->.
    destruct puts as [|p puts _] using rev_ind; [congruence|].
    specialize (Hlook p.1). unfold Writer.last_put in Hlook.
    rewrite omap_app, last_app in Hlook. cbn in Hlook.
    rewrite decide_True in Hlook by reflexivity. cbn in Hlook.
    rewrite lookup_empty in Hlook. discriminate. }
  destruct consumed as [w1 self1] eqn:Hc. cbn [fst snd] in *.
  destruct (JSONMore.push_holds now io w1 self1 fname rows pending Hholds1)
    as (rows' & pending' & _ & (_ & _ & Hstats & Hnow) & _ & _ & Hnonzero).
  destruct (Hnonzero Hsize) as (-> & -> & _).
  exists (stamp now pending). subst flushed.
  split_and!; [exact Hstats | exact Hnow | | |].
  - unfold stamp. rewrite lookup_insert_ne by discriminate. apply lookup_insert_eq.
  - unfold stamp. apply lookup_insert_eq.
  - intros name Hn1 Hn2. unfold stamp. rewrite !lookup_insert_ne by congruence.
    rewrite Hlook, lookup_empty. now destruct (Writer.last_put name puts).
Qed.

(** X13: what a JSON writer keeps over any sequence of scalars, step
    triggers and epoch triggers, whatever the disk does at each flush.
    The rows it holds only grow: they always start with the rows it had.
    As long as no flush fails in the middle of the copy that a move falls
    back to (the one failure that truncates the file), the canonical file
    is either untouched or a whole document, a list of rows that starts
    with the initial rows and is the beginning of the rows held; it then
    never holds a row the writer does not hold. *)
Theorem X13_rows_and_file_over_any_calls `{Builtins} (w : World)
    (self : JSONWriter.t) (fname : string) (rows : list Json)
    (row : gmap string Json) (cs : list WriterCall) :
  writer_holds self fname rows row → is_Some (JSONWriter._total self) →
  let after := Writer.after_calls cs (w, self) in
  ∃ rows' row',
    writer_holds after.2 fname rows' row'
    ∧ rows `prefix_of` rows'
    ∧ (forallb Writer.flushes_whole cs = true →
       Writer.file_tracks w after.1 fname rows rows').
Proof.
  intros Hholds Htotal after.
  assert (Hkeeps : ∀ strict, WriterFacts.keeps strict w fname rows (w, self)).
  { intros strict. exists rows, row.
    split_and!; [exact Hholds | exact Htotal | reflexivity | intros _; now left]. }
  destruct (forallb Writer.flushes_whole cs) eqn:Hcs.
  - destruct (WriterFacts.after_calls_keeps true cs w fname rows _ (λ _, Hcs)
                (Hkeeps true))
      as (rows' & row' & Hholds' & _ & Hpre & Hfile).
    exists rows', row'. split_and!; [exact Hholds' | exact Hpre |].
    intros _. now apply Hfile.
  - assert (Hno : false = true → forallb Writer.flushes_whole cs = true)
      by discriminate.
    destruct (WriterFacts.after_calls_keeps false cs w fname rows _ Hno
                (Hkeeps false))
      as (rows' & row' & Hholds' & _ & Hpre & _).
    exists rows', row'. split_and!; [exact Hholds' | exact Hpre | discriminate].
Qed.

(** X14: [_print_stat] on a printer that has been set up logs one line per
    pending value, the lines in the order of the names, each name once,
    then empties the pending values; it touches no file and does not
    raise.  (With the whitelist and the blacklist as [__init__] leaves
    them, nothing is filtered out.) *)
Theorem X14_print_stat_prints_each_value_once_by_name (format_5g : float → string)
    (w : World) (self : ScalarPrinter.t) (d : gmap string float) :
  ScalarPrinter._dic self = Some d →
  let after := ScalarPrinter._print_stat format_5g (w, self) in
  after.2 = Ok tt
  ∧ ScalarPrinter._dic after.1.2 = Some ∅
  ∧ files after.1.1 = files w
  ∧ ∃ items : list (string * float),
      log after.1.1 = log w ++ map (ScalarPrinter.line format_5g) items
      ∧ Sorted ScalarPrinter.by_name items
      ∧ NoDup items.*1
      ∧ ∀ k v, (k, v) ∈ items ↔ d !! k = Some v.
Proof.
  intros Hd after. subst after.
  rewrite (PrinterFacts.print_stat_cases format_5g w self d Hd). cbn [fst snd].
  split_and!; [reflexivity | reflexivity | reflexivity |].
  exists (ScalarPrinter.sorted_items d).
  pose proof (merge_sort_Permutation ScalarPrinter.by_name (map_to_list d)) as Hperm.
  split_and!.
  - reflexivity.
  - apply (Sorted_merge_sort ScalarPrinter.by_name).
  - unfold ScalarPrinter.sorted_items. rewrite Hperm. apply NoDup_fst_map_to_list.
  - intros k v. unfold ScalarPrinter.sorted_items. rewrite Hperm.
    apply elem_of_map_to_list.
Qed.

(** X15: the triggers of the printer.  At the last step of an epoch the
    step trigger followed by the epoch trigger print what is pending
    exactly once when printing is enabled for steps or for epochs, never
    twice, and not at all when both are disabled (the values then stay
    pending).  At any other step the step trigger prints exactly when
    printing is enabled for steps. *)
Theorem X15_printer_triggers_print_once (format_5g : float → string)
    (now : TrainerState) (w : World) (self : ScalarPrinter.t)
    (tr : TrainerRef) (total : Z) (d : gmap string float) :
  ScalarPrinter.trainer self = Some tr →
  ScalarPrinter._total self = Some total →
  ScalarPrinter._dic self = Some d →
  let print := ScalarPrinter._print_stat format_5g (w, self) in
  let step := ScalarPrinter._trigger_step format_5g now (w, self) in
  (local_step now = (total - 1)%Z →
   ScalarPrinter._trigger_epoch format_5g step.1
   = if ScalarPrinter._enable_step self || ScalarPrinter._enable_epoch self
     then print else ((w, self), Ok tt))
  ∧ (local_step now ≠ (total - 1)%Z →
     step = if ScalarPrinter._enable_step self then print else ((w, self), Ok tt)).
Proof.
  intros Htr Htotal Hd print step. subst print step.
  pose proof (PrinterFacts.print_stat_cases format_5g w self d Hd) as Hprint.
  destruct self as [tr0 enable_step enable_epoch dic tot].
  cbn [ScalarPrinter.trainer ScalarPrinter._total ScalarPrinter._dic
       ScalarPrinter._enable_step ScalarPrinter._enable_epoch] in *.
  subst tr0 tot dic.
  unfold ScalarPrinter._trigger_step, ScalarPrinter._trigger_epoch.
  unfold mbind, M_bind, mret, M_ret, get, attr.
  cbn [fst snd ScalarPrinter.trainer ScalarPrinter._total
       ScalarPrinter._enable_step ScalarPrinter._enable_epoch].
  split.
  - intros Hlast. apply Z.eqb_eq in Hlast.
    destruct enable_step, enable_epoch;
      repeat (progress
                (cbn [negb orb fst snd ScalarPrinter.trainer ScalarPrinter._total
                      ScalarPrinter._enable_step ScalarPrinter._enable_epoch
                      ScalarPrinter.set_dic];
                 rewrite ?Hlast, ?Hprint));
      reflexivity.
  - intros Hnot. apply Z.eqb_neq in Hnot.
    destruct enable_step;
      cbn [negb orb fst snd ScalarPrinter.trainer ScalarPrinter._total];
      rewrite ?Hnot; reflexivity.
Qed.

(** X16: the hub's store is unusable before the hub's [setup_graph] and
    empty after it.  On a hub as [__init__] leaves it, [get_history] and
    [get_latest] raise [AttributeError].  After [setup_graph], whatever
    the store held before (a second setup discards the history), every
    [get_history] returns the empty list and every [get_latest] raises
    [KeyError]. *)
Theorem X16_hub_store_before_and_after_setup (tr : TrainerRef)
    (sinks : list Monitor) (name : string) :
  (Monitors.get_history name (Monitors.__init__ sinks)).2
  = Raise (AttributeError "_dic")
  ∧ (Monitors.get_latest name (Monitors.__init__ sinks)).2
    = Raise (AttributeError "_dic")
  ∧ ∀ (tr0 : option TrainerRef) (store : ScalarHistory.t) (cs : list (nat * Call)),
      let h := {| Monitors.trainer := tr0;
                  Monitors._monitors := sinks ++ [AScalarHistory store];
                  Monitors.calls := cs |} in
      (Monitors.get_history name (Monitors.setup_graph tr h).1).2 = Ok []
      ∧ (Monitors.get_latest name (Monitors.setup_graph tr h).1).2
        = Raise (KeyError ("Invalid key: " +:+ name)).
Proof.
  assert (Hraw : ∀ A (c : M ScalarHistory.t A),
            c ScalarHistory.new = (ScalarHistory.new, Raise (AttributeError "_dic")) →
            (Monitors.at_ (Monitors._scalar_history (Monitors.__init__ sinks))
               (Sink.as_history c) (Monitors.__init__ sinks)).2
            = Raise (AttributeError "_dic")).
  { intros A c Hc. unfold Monitors.at_, Monitors._scalar_history, Monitors.__init__.
    cbn [Monitors._monitors]. rewrite length_app, Nat.add_1_r. cbn [Nat.pred length].
    rewrite list_lookup_middle by reflexivity.
    cbn [Sink.as_history]. unfold as_. now rewrite Hc. }
  split_and!.
  - apply (Hraw _ (ScalarHistory.get_history name)). reflexivity.
  - apply (Hraw _ (ScalarHistory.get_latest name)). reflexivity.
  - intros tr0 store cs h. subst h.
    assert (Hready : Store.ready {| ScalarHistory.trainer := Some tr;
                                    ScalarHistory._dic := Some ∅ |})
      by (eexists; reflexivity).
    assert (Hsetup :
      Monitors.setup_graph tr
        {| Monitors.trainer := tr0;
           Monitors._monitors := sinks ++ [AScalarHistory store];
           Monitors.calls := cs |}
      = ({| Monitors.trainer := Some tr;
            Monitors._monitors :=
              sinks ++ [AScalarHistory {| ScalarHistory.trainer := Some tr;
                                          ScalarHistory._dic := Some ∅ |}];
            Monitors.calls := cs ++ [(length sinks, CallSetupGraph tr)] |}, Ok tt)).
    { unfold Monitors.setup_graph, TrainingMonitor.setup_graph, Monitors._setup_graph,
        Monitors.record_call, Monitors.at_, Monitors._scalar_history.
      unfold_M.
      cbn [Monitors.set_trainer Monitors.trainer Monitors._monitors Monitors.calls].
      rewrite length_app, Nat.add_1_r. cbn [Nat.pred length].
      rewrite list_lookup_middle by reflexivity.
      cbn [Sink.as_history]. unfold as_. rewrite StoreFacts.setup_graph_fresh.
      unfold Monitors.set_monitors.
      cbn [Monitors.trainer Monitors._monitors Monitors.calls].
      rewrite insert_app_r_alt, Nat.sub_diag by lia. reflexivity. }
    rewrite Hsetup. cbn [fst].
    rewrite DispatchFacts.get_history_store, DispatchFacts.get_latest_store
      by exact Hready.
    split; reflexivity.
Qed.

(** * Closed instances of the further theorems *)

Lemma sample_hub_holds : hub_holds Sample.hub Sample.sinks Sample.store.
Proof. split; [reflexivity | exact sample_hub_setup]. Defined.

Lemma X1_witness :
  contains "/" "raw_count" = false
  ∧ Tag.endswith "raw_count" Tag.suffix = false
  ∧ Tag.normalize "raw_count" = "raw_count".
Proof.
  destruct (X1_tower_rewriting_needs_a_slash "raw_count") as (_ & _ & _ & Hsame).
  split_and!; [reflexivity | reflexivity | exact (Hsame eq_refl eq_refl)].
Defined.

Lemma sample_store_ready : Store.ready Sample.store.
Proof. eexists. reflexivity. Defined.

Lemma X2_witness :
  Store.ready Sample.store
  ∧ py_float (H := Sample.builtins) (PyStr "abc") = Raise ValueError
  ∧ (ScalarHistory.put_scalar (H := Sample.builtins) "x" (PyStr "abc") Sample.store).2
    = Raise ValueError.
Proof.
  destruct (X2_failed_record_changes_no_history (H := Sample.builtins)
              Sample.store "x" (PyStr "abc") ValueError sample_store_ready eq_refl)
    as [Hraise _].
  split_and!; [exact sample_store_ready | reflexivity | exact Hraise].
Defined.

Lemma X3_witness :
  (ScalarHistory.get_history "x" Sample.store).2 = Ok []
  ∧ (ScalarHistory.get_history "x"
       (Store.after_calls (H := Sample.builtins)
          [DoRecord "x" 0.5; DoLatest "y"; DoRecord "y" 1; DoRecord "x" 3]
          Sample.store)).2
    = Ok ([] ++ Store.recorded "x"
                  [DoRecord "x" 0.5; DoLatest "y"; DoRecord "y" 1; DoRecord "x" 3]).
Proof.
  split; [reflexivity|].
  exact (X3_histories_only_grow (H := Sample.builtins) Sample.store
           [DoRecord "x" 0.5; DoLatest "y"; DoRecord "y" 1; DoRecord "x" 3]
           "x" [] eq_refl).
Defined.

Lemma X4_witness :
  hub_holds Sample.hub Sample.sinks Sample.store
  ∧ (Monitors.get_history "loss" Sample.hub).2 = Ok []
  ∧ (Monitors.get_history "loss"
       (Hub.after_calls (H := Sample.builtins) Sample.now
          [HubPutSummary [{| tag := "tower0/loss"; value := simple_value 0.5 |};
                          {| tag := "tower1/loss"; value := simple_value 1 |}];
           HubPut "loss" 3]
          Sample.hub)).2
    = Ok ([] ++ Hub.pushed "loss"
                  [HubPutSummary [{| tag := "tower0/loss"; value := simple_value 0.5 |};
                                  {| tag := "tower1/loss"; value := simple_value 1 |}];
                   HubPut "loss" 3]).
Proof.
  split_and!; [exact sample_hub_holds | reflexivity |].
  exact (proj1 (X4_hub_history_over_calls (H := Sample.builtins) Sample.now
                  Sample.hub Sample.sinks Sample.store _ "loss" []
                  sample_hub_holds eq_refl)).
Defined.

Lemma X6_witness :
  Monitors._monitors Sample.hub_with_raw_second
  = [AJSONWriter Sample.writer] ++ AScalarPrinter Sample.raw_printer
    :: [AScalarHistory Sample.store]
  ∧ ∃ h',
      Monitors.put (H := Sample.builtins) Sample.now "x" (PyFloat 0.5)
        Sample.hub_with_raw_second
      = (h', Raise (AttributeError "_dic"))
      ∧ Monitors.calls h'
        = Monitors.calls Sample.hub_with_raw_second
          ++ round (CallPutScalar "x" (PyFloat 0.5)) 2
      ∧ Monitors._monitors h' !! 2 = Some (AScalarHistory Sample.store).
Proof.
  split; [reflexivity|].
  destruct (X6_fan_out_stops_at_the_first_raise (H := Sample.builtins) Sample.now
              Sample.hub_with_raw_second [AJSONWriter Sample.writer]
              [AScalarHistory Sample.store] (AScalarPrinter Sample.raw_printer)
              (AScalarPrinter Sample.raw_printer) (AttributeError "_dic")
              "x" 0.5%float eq_refl eq_refl eq_refl)
    as (h' & Heq & Hcalls & Hms).
  exists h'. split_and!; [exact Heq | exact Hcalls |].
  rewrite Hms. reflexivity.
Defined.

Lemma X7_witness :
  all_setup Sample.hub
  ∧ py_float (H := Sample.builtins) (PyStr "3.5") = Ok 3.5%float
  ∧ Monitors._monitors
      (Monitors.put (H := Sample.builtins) Sample.now "x" (PyStr "3.5") Sample.hub).1
    !! 1
    = Some (AJSONWriter
              (JSONWriter.set_stat_now (<["x" := JFloat 3.5]> ∅) Sample.writer))
  ∧ py_float (H := Sample.builtins) (PyFloat Sample.fine) = Ok Sample.fine
  ∧ Monitors._monitors
      (Monitors.put (H := Sample.builtins) Sample.now "x" (PyFloat Sample.fine)
         Sample.hub).1
    !! 3
    = Some (ATFSummaryWriter
              (TFSummaryWriter.set_writer
                 {| TFSummaryWriter.logdir := "/log";
                    TFSummaryWriter.events :=
                      [([{| tag := "x"; value := simple_value 1 |}], 2%Z)] |}
                 Sample.event_writer)).
Proof.
  destruct (X7_what_each_sink_holds_after_put (H := Sample.builtins) Sample.now
              Sample.hub "x" (PyStr "3.5") 3.5%float 1 sample_hub_setup eq_refl)
    as (Hjson & _).
  destruct (X7_what_each_sink_holds_after_put (H := Sample.builtins) Sample.now
              Sample.hub "x" (PyFloat Sample.fine) Sample.fine 3 sample_hub_setup
              eq_refl)
    as (_ & _ & Hevent & _).
  split_and!; [exact sample_hub_setup | reflexivity | | reflexivity |].
  - exact (Hjson Sample.writer ∅ eq_refl eq_refl).
  - exact (Hevent Sample.event_writer
             {| TFSummaryWriter.logdir := "/log"; TFSummaryWriter.events := [] |}
             eq_refl eq_refl).
Defined.

Lemma X8_witness :
  LOG_DIR Sample.world = Some "/log"
  ∧ (JSONWriter.setup_graph Sample.now Sample.trainer (Sample.world, JSONWriter.new)).2
    = Ok tt
  ∧ (JSONWriter.setup_graph Sample.now Sample.trainer
       (Sample.world_with_rows, JSONWriter.new)).2 = Ok tt.
Proof.
  destruct (X8_setup_graph_resumes_or_raises Sample.now Sample.trainer Sample.world
              JSONWriter.new "/log" eq_refl) as [_ Hfresh].
  destruct (X8_setup_graph_resumes_or_raises Sample.now Sample.trainer
              Sample.world_with_rows JSONWriter.new "/log" eq_refl) as [_ Hresumed].
  split_and!; [reflexivity | exact (proj1 Hfresh) | exact (proj1 Hresumed)].
Defined.

Lemma X9_witness :
  LOG_DIR Sample.world_with_rows = Some "/log"
  ∧ files Sample.world_with_rows !! JSONWriter.path_join "/log" "stat.json"
    = Some (JsonText (JList [JDict {["loss" := JFloat 0.5]}]))
  ∧ files
      (JSONWriter._push Sample.now JSONWriter.IoOk
         ((JSONWriter.setup_graph Sample.now Sample.trainer
             (Sample.world_with_rows, JSONWriter.new)).1.1,
          (JSONWriter.put_scalar (H := Sample.builtins) "loss" (PyFloat 3)
             (JSONWriter.setup_graph Sample.now Sample.trainer
                (Sample.world_with_rows, JSONWriter.new)).1.2).1)).1.1
    !! JSONWriter.path_join "/log" "stat.json"
    = Some (JsonText (JList ([JDict {["loss" := JFloat 0.5]}]
                             ++ [JDict (stamp Sample.now {["loss" := JFloat 3]})]))).
Proof.
  split_and!; [reflexivity | reflexivity |].
  exact (proj1 (X9_resume_appends_one_row (H := Sample.builtins) Sample.now Sample.now
                  Sample.trainer Sample.world_with_rows JSONWriter.new "/log"
                  [JDict {["loss" := JFloat 0.5]}] "loss" 3%float eq_refl eq_refl)).
Defined.

Lemma X10_witness :
  JSONWriter._fname Sample.writer_pending = Some "/log/stat.json"
  ∧ JSONWriter._stats Sample.writer_pending = Some (JList [])
  ∧ (JSONWriter._write_stat JSONWriter.IoMoveCopyFails
       (Sample.world_with_rows, Sample.writer_pending)).2 = Ok tt
  ∧ log (JSONWriter._write_stat JSONWriter.IoMoveCopyFails
           (Sample.world_with_rows, Sample.writer_pending)).1.1
    = log Sample.world_with_rows ++ ["Exception in JSONWriter._write_stat()!"]
  ∧ files (JSONWriter._write_stat JSONWriter.IoMoveCopyFails
             (Sample.world_with_rows, Sample.writer_pending)).1.1
    !! "/log/stat.json"
    = Some Garbage.
Proof.
  assert (Hio : JSONWriter.IoMoveCopyFails ≠ JSONWriter.IoOk) by discriminate.
  destruct (X10_write_stat_never_raises JSONWriter.IoMoveCopyFails
              Sample.world_with_rows Sample.writer_pending "/log/stat.json" (JList [])
              eq_refl eq_refl) as (Hok & _ & _ & Hlog & _ & Hcut & _).
  split_and!; [reflexivity | reflexivity | exact Hok | exact (Hlog Hio)
               | exact (Hcut eq_refl)].
Defined.

Lemma X11_witness :
  JSONWriter.trainer Sample.writer_pending = Some Sample.trainer
  ∧ JSONWriter._total Sample.writer_pending = Some 2%Z
  ∧ local_step Sample.now = (2 - 1)%Z
  ∧ JSONWriter._trigger_step Sample.now JSONWriter.IoOk
      (Sample.world, Sample.writer_pending)
    = ((Sample.world, Sample.writer_pending), Ok tt).
Proof.
  destruct (X11_one_flush_at_the_end_of_an_epoch Sample.now Sample.now
              JSONWriter.IoOk JSONWriter.IoOk (Sample.world, Sample.writer_pending)
              Sample.trainer 2 eq_refl eq_refl) as [Hlast _].
  split_and!; [reflexivity | reflexivity | reflexivity | exact (proj1 (Hlast eq_refl))].
Defined.

Lemma X12_witness :
  writer_holds Sample.writer "/log/stat.json" [] ∅
  ∧ [("loss", 0.5%float); ("loss", 3%float)] ≠ []
  ∧ ∃ row : gmap string Json,
      JSONWriter._stats
        (JSONWriter._push Sample.now JSONWriter.IoOk
           (Writer.after_calls (H := Sample.builtins)
              (map (λ p, WPut p.1 p.2) [("loss", 0.5%float); ("loss", 3%float)])
              (Sample.world, Sample.writer))).1.2
      = Some (JList ([] ++ [JDict row]))
      ∧ row !! "loss" = Some (JFloat 3).
Proof.
  assert (Hne : [("loss", 0.5%float); ("loss", 3%float)] ≠ []) by discriminate.
  destruct (X12_flushed_row_holds_the_last_values (H := Sample.builtins) Sample.now
              JSONWriter.IoOk Sample.world Sample.writer "/log/stat.json" []
              [("loss", 0.5%float); ("loss", 3%float)] sample_writer Hne)
    as (row & Hstats & _ & _ & _ & Hrow).
  split_and!; [exact sample_writer | exact Hne |].
  exists row. split; [exact Hstats|].
  exact (Hrow "loss" ltac:(discriminate) ltac:(discriminate)).
Defined.

Lemma sample_writer_resumed :
  writer_holds Sample.writer_resumed "/log/stat.json"
    [JDict {["loss" := JFloat 0.5]}] ∅.
Proof.
  exact (setup_graph_resumed Sample.now Sample.trainer Sample.world_with_rows
           JSONWriter.new "/log" [JDict {["loss" := JFloat 0.5]}] eq_refl eq_refl).
Defined.

Lemma X13_witness :
  writer_holds Sample.writer_resumed "/log/stat.json"
    [JDict {["loss" := JFloat 0.5]}] ∅
  ∧ is_Some (JSONWriter._total Sample.writer_resumed)
  ∧ forallb Writer.flushes_whole
      [WPut "loss" 3; WStep Sample.first_step JSONWriter.IoDumpFails;
       WPut "acc" 1; WEpoch Sample.now JSONWriter.IoOk] = true
  ∧ ∃ rows' row',
      writer_holds
        (Writer.after_calls (H := Sample.builtins)
           [WPut "loss" 3; WStep Sample.first_step JSONWriter.IoDumpFails;
            WPut "acc" 1; WEpoch Sample.now JSONWriter.IoOk]
           (Sample.world_resumed, Sample.writer_resumed)).2
        "/log/stat.json" rows' row'
      ∧ [JDict {["loss" := JFloat 0.5]}] `prefix_of` rows'
      ∧ Writer.file_tracks Sample.world_resumed
          (Writer.after_calls (H := Sample.builtins)
             [WPut "loss" 3; WStep Sample.first_step JSONWriter.IoDumpFails;
              WPut "acc" 1; WEpoch Sample.now JSONWriter.IoOk]
             (Sample.world_resumed, Sample.writer_resumed)).1
          "/log/stat.json" [JDict {["loss" := JFloat 0.5]}] rows'.
Proof.
  assert (Htotal : is_Some (JSONWriter._total Sample.writer_resumed))
    by (eexists; reflexivity).
  destruct (X13_rows_and_file_over_any_calls (H := Sample.builtins)
              Sample.world_resumed Sample.writer_resumed "/log/stat.json"
              [JDict {["loss" := JFloat 0.5]}] ∅
              [WPut "loss" 3; WStep Sample.first_step JSONWriter.IoDumpFails;
               WPut "acc" 1; WEpoch Sample.now JSONWriter.IoOk]
              sample_writer_resumed Htotal)
    as (rows' & row' & Hholds & Hpre & Hfile).
  split_and!; [exact sample_writer_resumed | exact Htotal | reflexivity |].
  exists rows', row'. split_and!; [exact Hholds | exact Hpre | exact (Hfile eq_refl)].
Defined.

(** The same run in full.  The flush of the first step meets the failing
    disk: its row is held but not written, and the failure is logged; the
    flush at the end of the epoch writes the old row and the two new
    ones. *)
Example sample_failed_flush :
  let mid := Writer.after_calls (H := Sample.builtins)
               [WPut "loss" 3; WStep Sample.first_step JSONWriter.IoDumpFails]
               (Sample.world_resumed, Sample.writer_resumed) in
  let after := Writer.after_calls (H := Sample.builtins)
                 [WPut "acc" 1; WEpoch Sample.now JSONWriter.IoOk] mid in
  JSONWriter._stats mid.2
  = Some (JList [JDict {["loss" := JFloat 0.5]};
                 JDict (stamp Sample.first_step {["loss" := JFloat 3]})])
  ∧ files mid.1 !! "/log/stat.json"
    = Some (JsonText (JList [JDict {["loss" := JFloat 0.5]}]))
  ∧ files mid.1 !! "/log/stat.json.tmp" = Some Garbage
  ∧ log mid.1
    = ["Found existing JSON at /log/stat.json, will append to it.";
       "Exception in JSONWriter._write_stat()!"]
  ∧ files after.1 !! "/log/stat.json"
    = Some (JsonText
              (JList [JDict {["loss" := JFloat 0.5]};
                      JDict (stamp Sample.first_step {["loss" := JFloat 3]});
                      JDict (stamp Sample.now {["acc" := JFloat 1]})]))
  ∧ files after.1 !! "/log/stat.json.tmp" = None.
Proof. vm_compute. split_and!; reflexivity. Qed.

(** With a move that fails in the middle of its copy the file is neither
    what it was nor a whole document, while the rows are still held. *)
Example sample_truncated_flush :
  let after := Writer.after_calls (H := Sample.builtins)
                 [WPut "loss" 3; WStep Sample.first_step JSONWriter.IoMoveCopyFails]
                 (Sample.world_resumed, Sample.writer_resumed) in
  forallb Writer.flushes_whole
    [WPut "loss" 3; WStep Sample.first_step JSONWriter.IoMoveCopyFails] = false
  ∧ files after.1 !! "/log/stat.json" = Some Garbage
  ∧ JSONWriter._stats after.2
    = Some (JList [JDict {["loss" := JFloat 0.5]};
                   JDict (stamp Sample.first_step {["loss" := JFloat 3]})]).
Proof. vm_compute. split_and!; reflexivity. Qed.

Lemma X14_witness :
  ScalarPrinter._dic Sample.printer_pending
  = Some {["loss" := 0.5%float; "acc" := 1%float]}
  ∧ (ScalarPrinter._print_stat Sample.format_5g
       (Sample.world, Sample.printer_pending)).2 = Ok tt
  ∧ ScalarPrinter._dic
      (ScalarPrinter._print_stat Sample.format_5g
         (Sample.world, Sample.printer_pending)).1.2 = Some ∅.
Proof.
  destruct (X14_print_stat_prints_each_value_once_by_name Sample.format_5g
              Sample.world Sample.printer_pending
              {["loss" := 0.5%float; "acc" := 1%float]} eq_refl)
    as (Hok & Hdic & _).
  split_and!; [reflexivity | exact Hok | exact Hdic].
Defined.

Lemma X15_witness :
  ScalarPrinter.trainer Sample.printer_pending = Some Sample.trainer
  ∧ ScalarPrinter._total Sample.printer_pending = Some 2%Z
  ∧ ScalarPrinter._dic Sample.printer_pending
    = Some {["loss" := 0.5%float; "acc" := 1%float]}
  ∧ local_step Sample.now = (2 - 1)%Z
  ∧ ScalarPrinter._trigger_epoch Sample.format_5g
      (ScalarPrinter._trigger_step Sample.format_5g Sample.now
         (Sample.world, Sample.printer_pending)).1
    = ScalarPrinter._print_stat Sample.format_5g (Sample.world, Sample.printer_pending).
Proof.
  destruct (X15_printer_triggers_print_once Sample.format_5g Sample.now Sample.world
              Sample.printer_pending Sample.trainer 2
              {["loss" := 0.5%float; "acc" := 1%float]} eq_refl eq_refl eq_refl)
    as [Hlast _].
  split_and!; [reflexivity | reflexivity | reflexivity | reflexivity
               | exact (Hlast eq_refl)].
Defined.

(** The printed lines of the sample printer come in the order of the
    names. *)
Example sample_printer_lines :
  log (ScalarPrinter._print_stat Sample.format_5g
         (Sample.world, Sample.printer_pending)).1.1
  = ["acc: #"; "loss: #"].
Proof. vm_compute. reflexivity. Qed.
